(** * bbsxtra: current shaping of the motor controller

    A shallow embedding of [src/test_harnesses/simulate_speed_pid.c]:
    the speed-limit PID ([apply_speed_limit]), the two current ramps
    ([apply_current_ramp_up], [apply_current_ramp_down]) and the unit
    conversion they share, followed by the properties of the control
    policy.

    Conventions.  C integers are modelled as [Z] with the wrap-around of
    each conversion written out ([uint8], [uint16], [uint32], [int16]).
    The [static] locals of each C function become a record that is passed
    in and returned.  The global [system_ms] is an explicit argument.
    [float] is IEEE binary32, modelled with the parameterised
    specification of the Standard Library ([SpecFloat], precision 24,
    [emax] 128, round to nearest even). *)

From Stdlib Require Import ZArith Bool List Lia.
From Stdlib Require Import Floats.SpecFloat.
Import ListNotations.

Local Open Scope Z_scope.

(** ** Machine integers *)

Definition uint8 (z : Z) : Z := z mod 256.
Definition uint16 (z : Z) : Z := z mod 65536.
Definition uint32 (z : Z) : Z := z mod 4294967296.
Definition int16 (z : Z) : Z := (z + 32768) mod 65536 - 32768.

(** ** Binary32 arithmetic *)

Module F32.

Definition prec : Z := 24.
Definition emax : Z := 128.

Definition add : spec_float -> spec_float -> spec_float := SFadd prec emax.
Definition sub : spec_float -> spec_float -> spec_float := SFsub prec emax.
Definition mul : spec_float -> spec_float -> spec_float := SFmul prec emax.
Definition div : spec_float -> spec_float -> spec_float := SFdiv prec emax.

(** [x < y], [x > y] and [x <= y] of C; false when an operand is a NaN. *)
Definition ltb : spec_float -> spec_float -> bool := SFltb.
Definition gtb (x y : spec_float) : bool := SFltb y x.
Definition leb : spec_float -> spec_float -> bool := SFleb.

(** Conversion of an integer to [float]. *)
Definition of_Z (z : Z) : spec_float := binary_normalize prec emax z 0 false.

Definition zero : spec_float := S754_zero false.

(** Conversion of a [float] to an integer type: the fractional part is
    discarded.  C leaves the conversion of an infinity or a NaN
    undefined; the model returns 0 there. *)
Definition to_Z (x : spec_float) : Z :=
  match x with
  | S754_finite s m e =>
      let a := match e with
               | Z0 => Zpos m
               | Zpos p => Zpos m * 2 ^ Zpos p
               | Zneg p => Zpos m / 2 ^ Zpos p
               end in
      if s then - a else a
  | _ => 0
  end.

End F32.

(** ** Constants of the source *)

(** [0.10f], [0.004f] and [0.01f]: the binary32 values nearest to the
    decimal literals. *)
Definition SPEED_LIMIT_PID_KP : spec_float := S754_finite false 13421773 (-27).
Definition SPEED_LIMIT_PID_KI_X005 : spec_float := S754_finite false 8589935 (-31).
Definition SPEED_LIMIT_PID_KD_X5 : spec_float := S754_finite false 10737418 (-30).
Definition WHEEL_CIRCUMFERENCE_MM : Z := 2268.

Definition MAX_CURRENT_AMPS : Z := 25.
Definition CURRENT_RAMP_AMPS_S : Z := 8.
Definition CURRENT_RAMP_DOWN_PERCENT_10MS : Z := 5.

(** The macros [MAX], [MIN] and [CLAMP] at type [float].  [CLAMP] expands
    to [MIN(MAX(x, min), max)], each a conditional expression. *)
Definition MAX (x y : spec_float) : spec_float := if F32.gtb x y then x else y.
Definition MIN (x y : spec_float) : spec_float := if F32.ltb x y then x else y.
Definition CLAMP (x lo hi : spec_float) : spec_float := MIN (MAX x lo) hi.

(** [uint16_t ramp_up_current_interval_ms = (MAX_CURRENT_AMPS * 10u) / CURRENT_RAMP_AMPS_S] *)
Definition ramp_up_current_interval_ms : Z :=
  uint16 (uint32 (MAX_CURRENT_AMPS * 10) / CURRENT_RAMP_AMPS_S).

(** ** Unit conversion *)

(** The parameter is a [uint8_t]: a wider argument is reduced on entry. *)
Definition convert_wheel_speed_kph_to_rpm (speed_kph : Z) : Z :=
  let speed_kph := uint8 speed_kph in
  let true_rpm := uint16 (uint32 (speed_kph * 100000) / uint32 (WHEEL_CIRCUMFERENCE_MM * 6)) in
  true_rpm.

(** ** Elapsed time

    Every stage computes [uint16_t time_diff = now - last] on [uint32_t]
    operands: a subtraction modulo 2^32 whose result is then reduced to
    16 bits. *)
Definition time_diff (now last : Z) : Z := uint16 (uint32 (now - last)).

(** [now - (uint8_t)(time_diff - interval)], a [uint32_t]. *)
Definition offset_overshoot (now td interval : Z) : Z :=
  uint32 (now - uint8 (td - interval)).

(** ** Ramp-up shaper *)

Record ramp_up_state : Type := mk_ramp_up {
  ramp_up_target_current : Z;        (* uint8_t *)
  last_ramp_up_increment_ms : Z      (* uint32_t *)
}.

Definition ramp_up_init : ramp_up_state := mk_ramp_up 0 0.

Definition apply_current_ramp_up
    (st : ramp_up_state) (target_current : Z) (enable : bool) (system_ms : Z)
    : ramp_up_state * Z :=
  if enable && (target_current >? ramp_up_target_current st) then
    let now := system_ms in
    let td := time_diff now (last_ramp_up_increment_ms st) in
    let st' :=
      if td >=? ramp_up_current_interval_ms then
        mk_ramp_up
          (uint8 (ramp_up_target_current st + 1))
          (if last_ramp_up_increment_ms st =? 0 then now
           else offset_overshoot now td ramp_up_current_interval_ms)
      else st in
    (st', ramp_up_target_current st')
  else
    (mk_ramp_up target_current 0, target_current).

(** ** Ramp-down shaper *)

Record ramp_down_state : Type := mk_ramp_down {
  ramp_down_target_current : Z;      (* uint8_t *)
  last_ramp_down_decrement_ms : Z    (* uint32_t *)
}.

Definition ramp_down_init : ramp_down_state := mk_ramp_down 0 0.

Definition apply_current_ramp_down
    (st : ramp_down_state) (target_current : Z) (enable : bool) (system_ms : Z)
    : ramp_down_state * Z :=
  if enable && (target_current <? ramp_down_target_current st) then
    let now := system_ms in
    let td := time_diff now (last_ramp_down_decrement_ms st) in
    let st' :=
      if td >=? 10 then
        let diff := uint8 (ramp_down_target_current st - target_current) in
        mk_ramp_down
          (if diff >=? CURRENT_RAMP_DOWN_PERCENT_10MS
           then uint8 (ramp_down_target_current st - CURRENT_RAMP_DOWN_PERCENT_10MS)
           else uint8 (ramp_down_target_current st - diff))
          (if last_ramp_down_decrement_ms st =? 0 then now
           else offset_overshoot now td 10)
      else st in
    (st', ramp_down_target_current st')
  else
    (mk_ramp_down target_current 0, target_current).

(** ** Speed-limit controller *)

Record pid_state : Type := mk_pid {
  last_pid_ms : Z;                   (* uint32_t, initialised to 50 *)
  last_speed_rpm_x10 : Z;            (* uint16_t *)
  clamped_output : Z;                (* uint8_t *)
  i_term : spec_float;               (* float *)
  speed_limiting : bool
}.

Definition pid_init : pid_state := mk_pid 50 0 0 F32.zero false.

(** The body of [if (time_diff >= 60) { ... }]: one evaluation of the PID. *)
Definition pid_evaluate
    (max_speed_rpm_x10 : Z) (st : pid_state) (target_current current_speed : Z)
    (now_ms td : Z) : pid_state :=
  let current_speed_rpm_x10 := uint16 (convert_wheel_speed_kph_to_rpm current_speed * 10) in
  (* If the PID has been off for >=2s, reset *)
  let last_speed := if td >=? 2000 then current_speed_rpm_x10 else last_speed_rpm_x10 st in
  let i0 := if td >=? 2000 then F32.of_Z target_current else i_term st in
  let error := int16 (int16 max_speed_rpm_x10 - int16 current_speed_rpm_x10) in
  let i1 := F32.add i0 (F32.mul SPEED_LIMIT_PID_KI_X005 (F32.of_Z error)) in
  let i2 := CLAMP i1 (F32.of_Z 0) (F32.of_Z target_current) in
  let d_input := int16 (int16 current_speed_rpm_x10 - int16 last_speed) in
  let output :=
    int16 (F32.to_Z
      (F32.sub (F32.add (F32.mul SPEED_LIMIT_PID_KP (F32.of_Z error)) i2)
               (F32.mul SPEED_LIMIT_PID_KD_X5 (F32.of_Z d_input)))) in
  let clamped :=
    if output <? 1 then 1
    else if output >? target_current then target_current
    else uint8 output in
  mk_pid now_ms current_speed_rpm_x10 clamped i2 (speed_limiting st).

(** The function for a given ceiling [max_speed_rpm_x10] (a local of the
    C function, computed from the 25 km/h limit). *)
Definition apply_speed_limit_at
    (max_speed_rpm_x10 : Z) (st : pid_state) (target_current current_speed : Z)
    (system_ms : Z) : pid_state * Z :=
  if (max_speed_rpm_x10 >? 0) && (target_current >? 0) then
    let now_ms := system_ms in
    let td := time_diff now_ms (last_pid_ms st) in
    let st1 :=
      if td >=? 60
      then pid_evaluate max_speed_rpm_x10 st target_current current_speed now_ms td
      else st in
    if target_current >? clamped_output st1 then
      (mk_pid (last_pid_ms st1) (last_speed_rpm_x10 st1) (clamped_output st1)
              (i_term st1) true,
       clamped_output st1)
    else
      (mk_pid (last_pid_ms st1) (last_speed_rpm_x10 st1) (clamped_output st1)
              (i_term st1) false,
       target_current)
  else (st, target_current).

Definition max_speed_rpm_x10 : Z := uint16 (convert_wheel_speed_kph_to_rpm 25 * 10).

Definition apply_speed_limit
    (st : pid_state) (target_current current_speed : Z) (system_ms : Z)
    : pid_state * Z :=
  apply_speed_limit_at max_speed_rpm_x10 st target_current current_speed system_ms.

(** ** The control tick

    The body of the loop of [main]: the request enters the speed limiter,
    then the ramp-up shaper, then the ramp-down shaper.  The request, the
    measured speed and the two enable flags are inputs of the tick. *)

Record controller_state : Type := mk_controller {
  pid : pid_state;
  ramp_up : ramp_up_state;
  ramp_down : ramp_down_state
}.

Definition controller_init : controller_state :=
  mk_controller pid_init ramp_up_init ramp_down_init.

Record tick : Type := mk_tick {
  tick_ms : Z;            (* system_ms *)
  tick_request : Z;       (* target_current on entry *)
  tick_speed : Z;         (* (uint16_t)speed_kph *)
  tick_ramp_up : bool;
  tick_ramp_down : bool
}.

Definition control_tick (st : controller_state) (t : tick) : controller_state * Z :=
  let '(p, c1) := apply_speed_limit (pid st) (tick_request t) (tick_speed t) (tick_ms t) in
  let '(u, c2) := apply_current_ramp_up (ramp_up st) c1 (tick_ramp_up t) (tick_ms t) in
  let '(d, c3) := apply_current_ramp_down (ramp_down st) c2 (tick_ramp_down t) (tick_ms t) in
  (mk_controller p u d, c3).

(** The run of the controller over a sequence of ticks: the final state
    and, for each tick, the request paired with the shaped current. *)
Fixpoint run (st : controller_state) (ticks : list tick) : controller_state * list (Z * Z) :=
  match ticks with
  | [] => (st, [])
  | t :: ticks' =>
      let '(st1, out) := control_tick st t in
      let '(st2, outs) := run st1 ticks' in
      (st2, (tick_request t, out) :: outs)
  end.

(** A tick the caller can produce: the request is a percentage, the clock
    a 32-bit reading, the speed a 16-bit reading. *)
Definition valid_tick (t : tick) : Prop :=
  0 <= tick_request t <= 100 /\
  0 <= tick_ms t < 4294967296 /\
  0 <= tick_speed t < 65536.

(** The shaped current of every tick lies between 0 and the request of
    that tick. *)
Definition never_amplifies (outs : list (Z * Z)) : Prop :=
  Forall (fun p => 0 <= snd p <= fst p) outs.

(** The shaped current of every tick ([ticks] and the pairs of [run]
    side by side) is not negative and not above the request of that tick,
    except on a tick that enables the ramp-down shaper while the shaped
    current of the tick before ([prev] before the first one) is above the
    request: there it is not above that previous current. *)
Fixpoint within_request_unless_ramping_down
    (prev : Z) (ticks : list tick) (outs : list (Z * Z)) : Prop :=
  match ticks, outs with
  | [], [] => True
  | t :: ticks', (request, out) :: outs' =>
      0 <= out /\
      (if tick_ramp_down t && (request <? prev)
       then out <= prev
       else out <= request) /\
      within_request_unless_ramping_down out ticks' outs'
  | _, _ => False
  end.

(** Full request for six ticks, one per ramp-up interval, then the
    request released to 0; both shapers enabled, the wheel at rest. *)
Definition throttle_release : list tick :=
  [ mk_tick 31 100 0 true true; mk_tick 62 100 0 true true;
    mk_tick 93 100 0 true true; mk_tick 124 100 0 true true;
    mk_tick 155 100 0 true true; mk_tick 186 100 0 true true;
    mk_tick 190 0 0 true true ].

(** The ramp-down shaper called repeatedly, enabled, with a constant request. *)
Fixpoint ramp_down_run (st : ramp_down_state) (target_current : Z) (clock : list Z)
    : ramp_down_state :=
  match clock with
  | [] => st
  | now :: clock' =>
      ramp_down_run (fst (apply_current_ramp_down st target_current true now))
                    target_current clock'
  end.

(** Every call of the run that finds the request below the ramp target
    comes at least 10 ms after the stored timestamp, as the shaper
    measures it: the difference of clock and stored timestamp modulo
    2^16, the stored timestamp being 0 after a resynchronization. *)
Fixpoint paced_10ms (st : ramp_down_state) (target_current : Z) (clock : list Z) : Prop :=
  match clock with
  | [] => True
  | now :: clock' =>
      (target_current < ramp_down_target_current st ->
       10 <= (now - last_ramp_down_decrement_ms st) mod 65536) /\
      paced_10ms (fst (apply_current_ramp_down st target_current true now))
                 target_current clock'
  end.

(** The ramp-up shaper called repeatedly, enabled, with a constant request. *)
Fixpoint ramp_up_run (st : ramp_up_state) (target_current : Z) (clock : list Z)
    : ramp_up_state :=
  match clock with
  | [] => st
  | now :: clock' =>
      ramp_up_run (fst (apply_current_ramp_up st target_current true now))
                  target_current clock'
  end.

(** Every call of the run that finds the request above the ramp target
    comes at least one ramp-up interval (as the shaper measures it) after
    the stored timestamp. *)
Fixpoint paced_interval (st : ramp_up_state) (target_current : Z) (clock : list Z) : Prop :=
  match clock with
  | [] => True
  | now :: clock' =>
      (ramp_up_target_current st < target_current ->
       ramp_up_current_interval_ms <= time_diff now (last_ramp_up_increment_ms st)) /\
      paced_interval (fst (apply_current_ramp_up st target_current true now))
                     target_current clock'
  end.

(** [int16_t error = (int16_t)max_speed_rpm_x10 - (int16_t)current_speed_rpm_x10],
    as [pid_evaluate] computes it from the measured speed. *)
Definition speed_error (current_speed : Z) : Z :=
  int16 (int16 max_speed_rpm_x10
         - int16 (uint16 (convert_wheel_speed_kph_to_rpm current_speed * 10))).

(** The shaped current of every tick, compared with the one before
    ([prev] before the first): it is at most one unit higher when the tick
    enables the ramp-up shaper, at most
    [CURRENT_RAMP_DOWN_PERCENT_10MS] lower when it enables the ramp-down
    shaper. *)
Fixpoint slew_limited (prev : Z) (ticks : list tick) (outs : list (Z * Z)) : Prop :=
  match ticks, outs with
  | t :: ticks', (_, out) :: outs' =>
      (tick_ramp_up t = true -> out <= prev + 1) /\
      (tick_ramp_down t = true -> prev - CURRENT_RAMP_DOWN_PERCENT_10MS <= out) /\
      slew_limited out ticks' outs'
  | _, _ => True
  end.

(** The shaped current of every tick lies between 0 and the largest
    request seen up to and including that tick ([peak] before the first). *)
Fixpoint within_peak_request (peak : Z) (outs : list (Z * Z)) : Prop :=
  match outs with
  | [] => True
  | (request, out) :: outs' =>
      0 <= out <= Z.max peak request /\
      within_peak_request (Z.max peak request) outs'
  end.

(** ** The simulation of [main]

    The bike of the harness: a speed in km/h as a [float], advanced every
    tick from the shaped current.  [dt], [accel_per_amp] and [drag] are
    the binary32 values of [0.005f], [0.02f] and [0.006f]. *)

Definition dt : spec_float := S754_finite false 10737418 (-31).
Definition accel_per_amp : spec_float := S754_finite false 10737418 (-29).
Definition drag : spec_float := S754_finite false 12884902 (-31).

Record sim_state : Type := mk_sim {
  sim_controller : controller_state;
  speed_kph : spec_float
}.

Definition sim_init : sim_state := mk_sim controller_init F32.zero.

(** One iteration of the loop at clock [t], up to the [printf]: the state
    after it and the shaped current.  [(uint16_t)speed_kph] discards the
    fraction (C leaves it undefined from 65536 up; the model reduces). *)
Definition main_step (st : sim_state) (t : Z) : sim_state * Z :=
  let '(c, target_current) :=
    control_tick (sim_controller st)
                 (mk_tick t 100 (uint16 (F32.to_Z (speed_kph st))) true true) in
  let accel :=
    F32.sub (F32.mul (F32.of_Z target_current) accel_per_amp)
            (F32.mul drag (speed_kph st)) in
  let speed := F32.add (speed_kph st) (F32.mul accel dt) in
  let speed := if F32.ltb speed (F32.of_Z 0) then F32.of_Z 0 else speed in
  (mk_sim c speed, target_current).

(** The loop over the clock values [clock]; a line (time, current, speed)
    is printed when the time is a multiple of 200. *)
Fixpoint main_loop (st : sim_state) (clock : list Z)
    : sim_state * list (Z * Z * spec_float) :=
  match clock with
  | [] => (st, [])
  | t :: clock' =>
      let '(st1, target_current) := main_step st t in
      let '(st2, lines) := main_loop st1 clock' in
      (st2, if t mod 200 =? 0
            then (t, target_current, speed_kph st1) :: lines
            else lines)
  end.

(** The values taken by [t] in [for (uint32_t t = 0; t <= 100000; t += 5)]:
    20001 of them, from 0 in steps of 5. *)
Fixpoint clock_from (t : Z) (n : nat) : list Z :=
  match n with
  | O => []
  | S n' => t :: clock_from (t + 5) n'
  end.

Definition main_clock : list Z := clock_from 0 (Z.to_nat (100000 / 5 + 1)).

Definition main : sim_state * list (Z * Z * spec_float) := main_loop sim_init main_clock.

(** ** Well-formed states: every field within its C type *)

Definition is_uint8 (z : Z) : Prop := 0 <= z < 256.
Definition is_uint32 (z : Z) : Prop := 0 <= z < 4294967296.

Definition ramp_up_wf (st : ramp_up_state) : Prop :=
  is_uint8 (ramp_up_target_current st) /\ is_uint32 (last_ramp_up_increment_ms st).

Definition ramp_down_wf (st : ramp_down_state) : Prop :=
  is_uint8 (ramp_down_target_current st) /\ is_uint32 (last_ramp_down_decrement_ms st).

Definition pid_wf (st : pid_state) : Prop :=
  is_uint8 (clamped_output st) /\ is_uint32 (last_pid_ms st).

Definition controller_wf (st : controller_state) : Prop :=
  pid_wf (pid st) /\ ramp_up_wf (ramp_up st) /\ ramp_down_wf (ramp_down st).

(** What the run of [main] is checked for: every printed speed is below
    30 km/h, some printed current is the full request, and the run ends
    with the limiter limiting, at a current of 8. *)
Definition main_outcome (r : sim_state * list (Z * Z * spec_float)) : bool :=
  forallb (fun l => F32.ltb (snd l) (F32.of_Z 30)) (snd r)
  && existsb (fun l => snd (fst l) =? 100) (snd r)
  && speed_limiting (pid (sim_controller (fst r)))
  && (clamped_output (pid (sim_controller (fst r))) =? 8)
  && (ramp_down_target_current (ramp_down (sim_controller (fst r))) =? 8).

(** The ramp-up target is not above the ramp-down target (so it is after every tick). *)
Definition ramps_ordered (st : controller_state) : Prop :=
  ramp_up_target_current (ramp_up st) <= ramp_down_target_current (ramp_down st).

(** Every value of a [uint8_t]. *)
Definition uint8_values : list Z := map Z.of_nat (seq 0 256).

(** ** Arithmetic of the machine integers *)

Lemma uint8_id z : is_uint8 z -> uint8 z = z.
Proof. unfold is_uint8, uint8. intros H. apply Z.mod_small. lia. Qed.

Lemma uint8_range z : is_uint8 (uint8 z).
Proof. unfold is_uint8, uint8. apply Z.mod_pos_bound. lia. Qed.

Lemma uint16_range z : 0 <= uint16 z < 65536.
Proof. unfold uint16. apply Z.mod_pos_bound. lia. Qed.

Lemma uint32_range z : is_uint32 (uint32 z).
Proof. unfold is_uint32, uint32. apply Z.mod_pos_bound. lia. Qed.

Lemma uint32_id z : is_uint32 z -> uint32 z = z.
Proof. unfold is_uint32, uint32. intros H. apply Z.mod_small. lia. Qed.

(** Reduction to 16 bits after reduction to 32 bits is reduction to 16 bits. *)
Lemma uint16_uint32 z : uint16 (uint32 z) = uint16 z.
Proof.
  unfold uint16, uint32.
  change 4294967296 with (65536 * 65536).
  rewrite Z.rem_mul_r by lia.
  rewrite Z.add_mod by lia.
  rewrite (Z.mul_comm 65536), Z.mod_mul by lia.
  rewrite Z.add_0_r. now rewrite !Z.mod_mod by lia.
Qed.

Lemma time_diff_mod now last : time_diff now last = (now - last) mod 65536.
Proof. unfold time_diff. now rewrite uint16_uint32. Qed.

Lemma time_diff_range now last : 0 <= time_diff now last < 65536.
Proof. apply uint16_range. Qed.

(** The stored instant [last] and the reading [now] are the 32-bit images
    of two instants [E] milliseconds apart; when [E] fits in 16 bits the
    shapers measure exactly [E], wherever the 32-bit counter wraps. *)
Lemma time_diff_elapsed L E :
  0 <= E < 65536 -> time_diff (uint32 (L + E)) (uint32 L) = E.
Proof.
  intros HE. rewrite time_diff_mod. unfold uint32.
  rewrite (Z.mod_eq (L + E) 4294967296), (Z.mod_eq L 4294967296) by lia.
  set (q1 := (L + E) / 4294967296). set (q0 := L / 4294967296).
  replace (L + E - 4294967296 * q1 - (L - 4294967296 * q0))
    with (E + (65536 * q0 - 65536 * q1) * 65536) by ring.
  rewrite Z_mod_plus_full. apply Z.mod_small. lia.
Qed.

Lemma time_diff_unset now : time_diff now 0 = now mod 65536.
Proof. rewrite time_diff_mod. now rewrite Z.sub_0_r. Qed.

(** Boolean tests on [Z] turned into hypotheses. *)
Ltac ztest :=
  repeat match goal with
  | |- context [?a >? ?b] => rewrite (Z.gtb_ltb a b)
  | |- context [?a >=? ?b] => rewrite (Z.geb_leb a b)
  | H : context [?a >? ?b] |- _ => rewrite (Z.gtb_ltb a b) in H
  | H : context [?a >=? ?b] |- _ => rewrite (Z.geb_leb a b) in H
  end;
  repeat match goal with
  | |- context [?a <? ?b] => destruct (Z.ltb_spec a b)
  | |- context [?a <=? ?b] => destruct (Z.leb_spec a b)
  | |- context [?a =? ?b] => destruct (Z.eqb_spec a b)
  end.

(** ** Binary32 comparisons *)

Lemma F32_ltb_leb x y : F32.ltb x y = true -> F32.leb x y = true.
Proof.
  unfold F32.ltb, F32.leb, SFltb, SFleb.
  destruct (SFcompare x y) as [[ | | ] | ]; congruence.
Qed.

(** [CLAMP] returns a value between its bounds whatever its first
    argument is (a NaN included), provided the bounds are ordered numbers. *)
Lemma CLAMP_between x lo hi :
  F32.leb lo lo = true -> F32.leb hi hi = true -> F32.leb lo hi = true ->
  F32.leb lo (CLAMP x lo hi) = true /\ F32.leb (CLAMP x lo hi) hi = true.
Proof.
  intros Hlo Hhi Hlh. unfold CLAMP, MIN, MAX, F32.gtb.
  destruct (SFltb lo x) eqn:Hx.
  - destruct (F32.ltb x hi) eqn:Hm.
    + split; apply F32_ltb_leb; assumption.
    + split; assumption.
  - destruct (F32.ltb lo hi) eqn:Hm.
    + split; [assumption | apply F32_ltb_leb; assumption].
    + split; assumption.
Qed.

Lemma uint8_values_complete z : is_uint8 z -> In z uint8_values.
Proof.
  intros [H0 H1]. unfold uint8_values.
  rewrite <- (Z2Nat.id z) by assumption.
  apply in_map, in_seq. lia.
Qed.

(** [(float)t] of an 8-bit [t] is a number, and it is not below zero. *)
Lemma of_Z_uint8_ordered t :
  is_uint8 t ->
  F32.leb (F32.of_Z 0) (F32.of_Z t) = true /\ F32.leb (F32.of_Z t) (F32.of_Z t) = true.
Proof.
  intros Ht.
  assert (Hall : forallb (fun z => F32.leb (F32.of_Z 0) (F32.of_Z z)
                                   && F32.leb (F32.of_Z z) (F32.of_Z z))
                         uint8_values = true) by (vm_compute; reflexivity).
  rewrite forallb_forall in Hall.
  specialize (Hall t (uint8_values_complete t Ht)).
  apply andb_true_iff in Hall. exact Hall.
Qed.

(** ** The constants, evaluated *)

(** The three gains are the correctly rounded binary32 quotients that
    the decimal literals denote. *)
Example pid_gains_rounded :
  SPEED_LIMIT_PID_KP = F32.div (F32.of_Z 1) (F32.of_Z 10) /\
  SPEED_LIMIT_PID_KI_X005 = F32.div (F32.of_Z 4) (F32.of_Z 1000) /\
  SPEED_LIMIT_PID_KD_X5 = F32.div (F32.of_Z 1) (F32.of_Z 100).
Proof. repeat split; vm_compute; reflexivity. Qed.

Example constants_evaluated :
  max_speed_rpm_x10 = 1830 /\ ramp_up_current_interval_ms = 31.
Proof. split; reflexivity. Qed.

(** The first ticks of the simulation of [main] (a tick every 5 ms, full
    request, wheel at rest): the first unit of current appears at 35 ms. *)
Example main_first_ticks :
  snd (run controller_init
         (map (fun k => mk_tick (5 * Z.of_nat k) 100 0 true true) (seq 0 9)))
  = [(100, 0); (100, 0); (100, 0); (100, 0); (100, 0); (100, 0); (100, 0);
     (100, 1); (100, 1)].
Proof. vm_compute. reflexivity. Qed.

(** ** Stage lemmas *)

Section RampUp.

Variable st : ramp_up_state.
Variables target_current now : Z.

Lemma ramp_up_resync enable :
  enable = false \/ target_current <= ramp_up_target_current st ->
  apply_current_ramp_up st target_current enable now
  = (mk_ramp_up target_current 0, target_current).
Proof.
  intros H. unfold apply_current_ramp_up.
  destruct enable; cbn [andb]; [ | reflexivity].
  destruct H as [H | H]; [discriminate | ].
  ztest; (lia || reflexivity).
Qed.

(** The branch taken when the shaper is enabled and the request is above
    the ramp target. *)
Lemma ramp_up_ramping :
  ramp_up_target_current st < target_current ->
  apply_current_ramp_up st target_current true now
  = let td := time_diff now (last_ramp_up_increment_ms st) in
    if ramp_up_current_interval_ms <=? td then
      (mk_ramp_up (uint8 (ramp_up_target_current st + 1))
                  (if last_ramp_up_increment_ms st =? 0 then now
                   else offset_overshoot now td ramp_up_current_interval_ms),
       uint8 (ramp_up_target_current st + 1))
    else (st, ramp_up_target_current st).
Proof.
  intros H. unfold apply_current_ramp_up. cbn [andb].
  rewrite Z.gtb_ltb. destruct (Z.ltb_spec (ramp_up_target_current st) target_current); [ | lia].
  cbv zeta. rewrite Z.geb_leb.
  destruct (ramp_up_current_interval_ms <=? _); reflexivity.
Qed.

Lemma ramp_up_bounds enable :
  ramp_up_wf st -> is_uint8 target_current -> is_uint32 now ->
  let r := apply_current_ramp_up st target_current enable now in
  0 <= snd r <= target_current /\
  ramp_up_target_current (fst r) = snd r /\
  ramp_up_wf (fst r).
Proof.
  intros [Hr Hl] Ht Hn. cbv zeta.
  destruct (Z.lt_ge_cases (ramp_up_target_current st) target_current) as [Hlt | Hge].
  - destruct enable.
    + rewrite ramp_up_ramping by assumption. cbv zeta.
      unfold ramp_up_wf, is_uint8 in *.
      destruct (ramp_up_current_interval_ms <=? _); cbn [fst snd ramp_up_target_current last_ramp_up_increment_ms].
      * rewrite uint8_id by (unfold is_uint8; lia).
        repeat split; try lia.
        all: destruct (last_ramp_up_increment_ms st =? 0); try apply uint32_range; apply Hn.
      * repeat split; try lia; apply Hl.
    + rewrite ramp_up_resync by (left; reflexivity).
      unfold ramp_up_wf, is_uint8, is_uint32 in *. cbn. repeat split; lia.
  - rewrite ramp_up_resync by (right; lia).
    unfold ramp_up_wf, is_uint8, is_uint32 in *. cbn. repeat split; lia.
Qed.

End RampUp.

Section RampDown.

Variable st : ramp_down_state.
Variables target_current now : Z.

Lemma ramp_down_resync enable :
  enable = false \/ ramp_down_target_current st <= target_current ->
  apply_current_ramp_down st target_current enable now
  = (mk_ramp_down target_current 0, target_current).
Proof.
  intros H. unfold apply_current_ramp_down.
  destruct enable; cbn [andb]; [ | reflexivity].
  destruct H as [H | H]; [discriminate | ].
  ztest; (lia || reflexivity).
Qed.

(** The branch taken when the shaper is enabled and the request is below
    the ramp target, with the 8-bit arithmetic resolved. *)
Lemma ramp_down_ramping :
  is_uint8 (ramp_down_target_current st) -> 0 <= target_current ->
  target_current < ramp_down_target_current st ->
  apply_current_ramp_down st target_current true now
  = let td := time_diff now (last_ramp_down_decrement_ms st) in
    let r := ramp_down_target_current st in
    if 10 <=? td then
      (mk_ramp_down (r - Z.min CURRENT_RAMP_DOWN_PERCENT_10MS (r - target_current))
                    (if last_ramp_down_decrement_ms st =? 0 then now
                     else offset_overshoot now td 10),
       r - Z.min CURRENT_RAMP_DOWN_PERCENT_10MS (r - target_current))
    else (st, r).
Proof.
  intros Hr H0 H. unfold apply_current_ramp_down. cbn [andb].
  destruct (Z.ltb_spec target_current (ramp_down_target_current st)); [ | lia].
  cbv zeta. rewrite (Z.geb_leb _ 10).
  destruct (10 <=? _); [ | reflexivity].
  unfold is_uint8, CURRENT_RAMP_DOWN_PERCENT_10MS in *.
  rewrite (uint8_id (ramp_down_target_current st - target_current))
    by (unfold is_uint8; lia).
  rewrite Z.geb_leb.
  destruct (Z.leb_spec 5 (ramp_down_target_current st - target_current)).
  - rewrite Z.min_l by lia. rewrite uint8_id by (unfold is_uint8; lia).
    reflexivity.
  - rewrite Z.min_r by lia. rewrite uint8_id by (unfold is_uint8; lia).
    reflexivity.
Qed.

Lemma ramp_down_bounds enable :
  ramp_down_wf st -> is_uint8 target_current -> is_uint32 now ->
  let r := apply_current_ramp_down st target_current enable now in
  target_current <= snd r <= Z.max target_current (ramp_down_target_current st) /\
  ramp_down_target_current (fst r) = snd r /\
  ramp_down_wf (fst r).
Proof.
  intros [Hr Hl] Ht Hn. cbv zeta.
  destruct (Z.lt_ge_cases target_current (ramp_down_target_current st)) as [Hlt | Hge].
  - destruct enable.
    + rewrite ramp_down_ramping by (try assumption; apply Ht). cbv zeta.
      unfold ramp_down_wf, is_uint8, CURRENT_RAMP_DOWN_PERCENT_10MS in *.
      destruct (10 <=? _); cbn [fst snd ramp_down_target_current last_ramp_down_decrement_ms].
      * repeat split; try lia.
        all: destruct (last_ramp_down_decrement_ms st =? 0); try apply uint32_range; apply Hn.
      * repeat split; try lia; apply Hl.
    + rewrite ramp_down_resync by (left; reflexivity).
      unfold ramp_down_wf, is_uint8, is_uint32 in *. cbn. repeat split; lia.
  - rewrite ramp_down_resync by (right; lia).
    unfold ramp_down_wf, is_uint8, is_uint32 in *. cbn. repeat split; lia.
Qed.

End RampDown.

Section SpeedLimit.

Variable st : pid_state.
Variables target_current current_speed now : Z.

(** The output committed by one evaluation. *)
Lemma pid_evaluate_clamped ceiling td :
  0 < target_current -> is_uint8 target_current ->
  1 <= clamped_output (pid_evaluate ceiling st target_current current_speed now td)
    <= target_current.
Proof.
  intros Hpos [_ Hlt]. unfold pid_evaluate. cbn [clamped_output].
  match goal with |- context [int16 (F32.to_Z ?x)] => generalize (int16 (F32.to_Z x)) end.
  intros output.
  destruct (Z.ltb_spec output 1); [lia | ].
  rewrite Z.gtb_ltb. destruct (Z.ltb_spec target_current output); [lia | ].
  rewrite uint8_id by (unfold is_uint8; lia). lia.
Qed.

(** The integral committed by one evaluation. *)
Lemma pid_evaluate_i_term ceiling td :
  is_uint8 target_current ->
  let i := i_term (pid_evaluate ceiling st target_current current_speed now td) in
  F32.leb (F32.of_Z 0) i = true /\ F32.leb i (F32.of_Z target_current) = true.
Proof.
  intros Ht. unfold pid_evaluate. cbn [i_term]. cbv zeta.
  destruct (of_Z_uint8_ordered target_current Ht) as [H0t Htt].
  apply CLAMP_between; [reflexivity | assumption | assumption].
Qed.

Lemma pid_evaluate_stamp ceiling td :
  last_pid_ms (pid_evaluate ceiling st target_current current_speed now td) = now.
Proof. reflexivity. Qed.

(** The two guards of [apply_speed_limit] resolved: the ceiling and the
    request are positive. *)
Lemma speed_limit_active ceiling :
  0 < ceiling -> 0 < target_current ->
  apply_speed_limit_at ceiling st target_current current_speed now
  = let td := time_diff now (last_pid_ms st) in
    let st1 := if 60 <=? td
               then pid_evaluate ceiling st target_current current_speed now td
               else st in
    if clamped_output st1 <? target_current then
      (mk_pid (last_pid_ms st1) (last_speed_rpm_x10 st1) (clamped_output st1)
              (i_term st1) true, clamped_output st1)
    else
      (mk_pid (last_pid_ms st1) (last_speed_rpm_x10 st1) (clamped_output st1)
              (i_term st1) false, target_current).
Proof.
  intros Hc Ht. unfold apply_speed_limit_at.
  rewrite !Z.gtb_ltb.
  destruct (Z.ltb_spec 0 ceiling); [ | lia].
  destruct (Z.ltb_spec 0 target_current); [ | lia].
  cbn [andb]. cbv zeta. rewrite Z.geb_leb. reflexivity.
Qed.

Lemma speed_limit_passthrough ceiling :
  ceiling <= 0 \/ target_current <= 0 ->
  apply_speed_limit_at ceiling st target_current current_speed now
  = (st, target_current).
Proof.
  intros H. unfold apply_speed_limit_at. rewrite !Z.gtb_ltb.
  destruct (Z.ltb_spec 0 ceiling); cbn [andb]; [ | reflexivity].
  destruct (Z.ltb_spec 0 target_current); [lia | reflexivity].
Qed.

Lemma speed_limit_bounds :
  pid_wf st -> is_uint8 target_current -> is_uint32 now ->
  let r := apply_speed_limit st target_current current_speed now in
  0 <= snd r <= target_current /\ pid_wf (fst r).
Proof.
  intros [Hc Hl] Ht Hn. cbv zeta. unfold apply_speed_limit.
  destruct (Z.lt_ge_cases 0 target_current) as [Hpos | Hzero].
  - rewrite speed_limit_active by (try assumption; reflexivity). cbv zeta.
    set (td := time_diff now (last_pid_ms st)).
    assert (Hst1 : exists st1,
               (if 60 <=? td
                then pid_evaluate max_speed_rpm_x10 st target_current current_speed now td
                else st) = st1
               /\ is_uint8 (clamped_output st1) /\ is_uint32 (last_pid_ms st1)).
    { eexists. split; [reflexivity | ].
      destruct (60 <=? td).
      - pose proof (pid_evaluate_clamped max_speed_rpm_x10 td Hpos Ht).
        rewrite pid_evaluate_stamp. unfold is_uint8 in *. split; [lia | assumption].
      - split; assumption. }
    destruct Hst1 as (st1 & -> & Hc1 & Hl1).
    unfold pid_wf, is_uint8, is_uint32 in *.
    destruct (Z.ltb_spec (clamped_output st1) target_current);
      cbn [fst snd clamped_output last_pid_ms]; lia.
  - rewrite speed_limit_passthrough by (right; lia).
    unfold pid_wf, is_uint8, is_uint32 in *. cbn [fst snd]. lia.
Qed.

End SpeedLimit.

(** ** Properties of the speed-limit controller *)

(** C8. With a zero speed ceiling or a zero request [apply_speed_limit]
    does nothing: the request is returned as it came and no field of the
    state (integral, last speed, timestamp, clamped output, limiting flag)
    changes.  The ceiling of the source is the constant
    [max_speed_rpm_x10]; the first conjunct covers any ceiling, the second
    is the function as compiled. *)
Theorem speed_limit_noop_on_zero :
  forall (ceiling : Z) (st : pid_state) (target_current current_speed now : Z),
    ceiling = 0 \/ target_current = 0 ->
    apply_speed_limit_at ceiling st target_current current_speed now
    = (st, target_current)
    /\ (target_current = 0 ->
        apply_speed_limit st target_current current_speed now = (st, target_current)).
Proof.
  intros ceiling st tc speed now H. split.
  - apply speed_limit_passthrough. lia.
  - intros Hz. apply speed_limit_passthrough. lia.
Qed.

Lemma speed_limit_noop_on_zero_witness :
  (0 = 0 \/ 80 = 0) /\
  apply_speed_limit_at 0 (mk_pid 1200 1500 37 (F32.of_Z 12) true) 80 24 1300
  = (mk_pid 1200 1500 37 (F32.of_Z 12) true, 80).
Proof.
  split; [left; reflexivity | ].
  apply (speed_limit_noop_on_zero 0 (mk_pid 1200 1500 37 (F32.of_Z 12) true) 80 24 1300).
  left; reflexivity.
Defined.

(** [apply_speed_limit] never returns more than it was given.  When
    the PID evaluates (the request is positive and at least 60 ms have
    elapsed), the output it commits lies in [1, request], and so does the
    returned current.  The floor of 1 also holds on a call that does not
    evaluate, as long as the committed output comes from an evaluation
    (it is at least 1). *)
Theorem speed_limit_le_input_and_floor :
  forall (st : pid_state) (target_current current_speed now : Z),
    is_uint8 target_current ->
    let r := apply_speed_limit st target_current current_speed now in
    snd r <= target_current /\
    (0 < target_current -> 60 <= time_diff now (last_pid_ms st) ->
       1 <= clamped_output (fst r) <= target_current /\
       1 <= snd r <= target_current) /\
    (0 < target_current -> 1 <= clamped_output st -> 1 <= snd r).
Proof.
  intros st tc speed now Ht. cbv zeta. unfold apply_speed_limit.
  destruct (Z.lt_ge_cases 0 tc) as [Hpos | Hzero].
  - rewrite speed_limit_active by (try assumption; reflexivity). cbv zeta.
    set (td := time_diff now (last_pid_ms st)).
    pose proof (pid_evaluate_clamped st tc speed now max_speed_rpm_x10 td Hpos Ht) as Hev.
    destruct (Z.leb_spec 60 td) as [Htd | Htd].
    + destruct (Z.ltb_spec
                  (clamped_output (pid_evaluate max_speed_rpm_x10 st tc speed now td)) tc);
        cbn [fst snd clamped_output]; lia.
    + destruct (Z.ltb_spec (clamped_output st) tc);
        cbn [fst snd clamped_output]; lia.
  - rewrite speed_limit_passthrough by (right; lia). cbn [fst snd]. lia.
Qed.

Lemma speed_limit_le_input_and_floor_witness :
  is_uint8 100 /\ 0 < 100 /\ 60 <= time_diff 0 (last_pid_ms pid_init) /\
  snd (apply_speed_limit pid_init 100 30 0) <= 100 /\
  1 <= clamped_output (fst (apply_speed_limit pid_init 100 30 0)) <= 100 /\
  1 <= snd (apply_speed_limit pid_init 100 30 0) <= 100.
Proof.
  assert (H8 : is_uint8 100) by (unfold is_uint8; lia).
  assert (Hp : 0 < 100) by lia.
  assert (Ht : 60 <= time_diff 0 (last_pid_ms pid_init)) by (vm_compute; discriminate).
  destruct (speed_limit_le_input_and_floor pid_init 100 30 0 H8) as (Hle & Hev & _).
  destruct (Hev Hp Ht) as (Hc & Ho).
  repeat split; (exact H8 || exact Hp || exact Ht || exact Hle || apply Hc || apply Ho).
Defined.

(** C2, where the code falls short of it.  The floor of 1 is enforced
    by the clamp of an evaluation only.  Before the first evaluation the
    committed output is still the 0 of the zero-initialised [static]: in
    the initial state, a request of 100 with the wheel at rest and the
    clock at 50 ms (0 ms after the initial timestamp 50, so no
    evaluation) is cut to 0, with the limiting flag set. *)
Example speed_limit_before_first_evaluation :
  time_diff 50 (last_pid_ms pid_init) = 0 /\
  apply_speed_limit pid_init 100 0 50 = (mk_pid 50 0 0 F32.zero true, 0).
Proof. split; reflexivity. Qed.

(** C3. At every evaluation of the PID the integral committed by the
    accumulate-and-clamp step satisfies [0 <= i_term] and
    [i_term <= (float)target_current], where [target_current] is the
    request as it entered [apply_speed_limit]. *)
Theorem i_term_within_request :
  forall (st : pid_state) (target_current current_speed now : Z),
    is_uint8 target_current ->
    0 < target_current ->
    60 <= time_diff now (last_pid_ms st) ->
    let st' := fst (apply_speed_limit st target_current current_speed now) in
    F32.leb (F32.of_Z 0) (i_term st') = true /\
    F32.leb (i_term st') (F32.of_Z target_current) = true.
Proof.
  intros st tc speed now Ht Hpos Htd. cbv zeta. unfold apply_speed_limit.
  rewrite speed_limit_active by (try assumption; reflexivity). cbv zeta.
  destruct (Z.leb_spec 60 (time_diff now (last_pid_ms st))) as [_ | Hlt]; [ | lia].
  pose proof (pid_evaluate_i_term st tc speed now max_speed_rpm_x10
                (time_diff now (last_pid_ms st)) Ht) as Hi.
  cbv zeta in Hi.
  destruct (_ <? tc); cbn [fst i_term]; exact Hi.
Qed.

Lemma i_term_within_request_witness :
  is_uint8 100 /\ 0 < 100 /\ 60 <= time_diff 0 (last_pid_ms pid_init) /\
  F32.leb (F32.of_Z 0) (i_term (fst (apply_speed_limit pid_init 100 30 0))) = true /\
  F32.leb (i_term (fst (apply_speed_limit pid_init 100 30 0))) (F32.of_Z 100) = true.
Proof.
  assert (H8 : is_uint8 100) by (unfold is_uint8; lia).
  assert (Hp : 0 < 100) by lia.
  assert (Ht : 60 <= time_diff 0 (last_pid_ms pid_init)) by (vm_compute; discriminate).
  split; [exact H8 | split; [exact Hp | split; [exact Ht | ]]].
  exact (i_term_within_request pid_init 100 30 0 H8 Hp Ht).
Defined.

(** ** Resynchronization of the shapers *)

(** C7. A shaper that is called disabled, or whose precondition fails (the
    request is not above the ramp-up target, not below the ramp-down
    target), returns the request, stores the request as its ramp target
    and clears its timestamp to 0, whatever progress the state held. *)
Theorem shapers_resynchronize :
  forall (up : ramp_up_state) (down : ramp_down_state)
         (target_current now : Z) (enable_up enable_down : bool),
    enable_up = false \/ target_current <= ramp_up_target_current up ->
    enable_down = false \/ ramp_down_target_current down <= target_current ->
    apply_current_ramp_up up target_current enable_up now
    = (mk_ramp_up target_current 0, target_current) /\
    apply_current_ramp_down down target_current enable_down now
    = (mk_ramp_down target_current 0, target_current).
Proof.
  intros up down tc now eu ed Hu Hd. split.
  - apply ramp_up_resync; assumption.
  - apply ramp_down_resync; assumption.
Qed.

Lemma shapers_resynchronize_witness :
  (true = false \/ 30 <= ramp_up_target_current (mk_ramp_up 40 1000)) /\
  (false = false \/ ramp_down_target_current (mk_ramp_down 90 1000) <= 30) /\
  apply_current_ramp_up (mk_ramp_up 40 1000) 30 true 1005 = (mk_ramp_up 30 0, 30) /\
  apply_current_ramp_down (mk_ramp_down 90 1000) 30 false 1005 = (mk_ramp_down 30 0, 30).
Proof.
  assert (Hu : true = false \/ 30 <= ramp_up_target_current (mk_ramp_up 40 1000))
    by (right; simpl; lia).
  assert (Hd : false = false \/ ramp_down_target_current (mk_ramp_down 90 1000) <= 30)
    by (left; reflexivity).
  split; [exact Hu | split; [exact Hd | ]].
  exact (shapers_resynchronize (mk_ramp_up 40 1000) (mk_ramp_down 90 1000)
           30 1005 true false Hu Hd).
Defined.

(** ** The control tick *)

Lemma control_tick_bounds (st : controller_state) (t : tick) :
  controller_wf st -> valid_tick t ->
  let r := control_tick st t in
  0 <= snd r <= Z.max (tick_request t) (ramp_down_target_current (ramp_down st)) /\
  ramp_down_target_current (ramp_down (fst r)) = snd r /\
  controller_wf (fst r).
Proof.
  intros (Hp & Hu & Hd) (Hreq & Hms & Hsp). cbv zeta. unfold control_tick.
  assert (H8 : is_uint8 (tick_request t)) by (unfold is_uint8; lia).
  pose proof (speed_limit_bounds (pid st) (tick_request t) (tick_speed t) (tick_ms t)
                Hp H8 Hms) as H1.
  destruct (apply_speed_limit (pid st) (tick_request t) (tick_speed t) (tick_ms t))
    as [p c1].
  cbn [fst snd] in H1. destruct H1 as (Hc1 & Hp').
  assert (H81 : is_uint8 c1) by (unfold is_uint8 in *; lia).
  pose proof (ramp_up_bounds (ramp_up st) c1 (tick_ms t) (tick_ramp_up t) Hu H81 Hms) as H2.
  destruct (apply_current_ramp_up (ramp_up st) c1 (tick_ramp_up t) (tick_ms t)) as [u c2].
  cbn [fst snd] in H2. destruct H2 as (Hc2 & _ & Hu').
  assert (H82 : is_uint8 c2) by (unfold is_uint8 in *; lia).
  pose proof (ramp_down_bounds (ramp_down st) c2 (tick_ms t) (tick_ramp_down t) Hd H82 Hms)
    as H3.
  destruct (apply_current_ramp_down (ramp_down st) c2 (tick_ramp_down t) (tick_ms t))
    as [d c3].
  cbn [fst snd] in H3. destruct H3 as (Hc3 & Heq & Hd').
  cbn [fst snd pid ramp_up ramp_down]. unfold controller_wf. cbn [pid ramp_up ramp_down].
  split; [lia | ]. split; [exact Heq | ].
  split; [exact Hp' | split; [exact Hu' | exact Hd']].
Qed.

Lemma controller_init_wf : controller_wf controller_init.
Proof.
  unfold controller_wf, pid_wf, ramp_up_wf, ramp_down_wf, is_uint8, is_uint32.
  cbn. lia.
Qed.

Lemma control_tick_request_bound (st : controller_state) (t : tick) :
  controller_wf st -> valid_tick t ->
  let r := control_tick st t in
  let prev := ramp_down_target_current (ramp_down st) in
  0 <= snd r /\
  (if tick_ramp_down t && (tick_request t <? prev)
   then snd r <= prev
   else snd r <= tick_request t) /\
  ramp_down_target_current (ramp_down (fst r)) = snd r /\
  controller_wf (fst r).
Proof.
  intros (Hp & Hu & Hd) (Hreq & Hms & Hsp). cbv zeta. unfold control_tick.
  assert (H8 : is_uint8 (tick_request t)) by (unfold is_uint8; lia).
  pose proof (speed_limit_bounds (pid st) (tick_request t) (tick_speed t) (tick_ms t)
                Hp H8 Hms) as H1.
  destruct (apply_speed_limit (pid st) (tick_request t) (tick_speed t) (tick_ms t))
    as [p c1].
  cbn [fst snd] in H1. destruct H1 as (Hc1 & Hp').
  assert (H81 : is_uint8 c1) by (unfold is_uint8 in *; lia).
  pose proof (ramp_up_bounds (ramp_up st) c1 (tick_ms t) (tick_ramp_up t) Hu H81 Hms) as H2.
  destruct (apply_current_ramp_up (ramp_up st) c1 (tick_ramp_up t) (tick_ms t)) as [u c2].
  cbn [fst snd] in H2. destruct H2 as (Hc2 & _ & Hu').
  assert (H82 : is_uint8 c2) by (unfold is_uint8 in *; lia).
  pose proof (ramp_down_bounds (ramp_down st) c2 (tick_ms t) (tick_ramp_down t) Hd H82 Hms)
    as H3.
  pose proof (ramp_down_resync (ramp_down st) c2 (tick_ms t) (tick_ramp_down t)) as Hoff.
  destruct (apply_current_ramp_down (ramp_down st) c2 (tick_ramp_down t) (tick_ms t))
    as [d c3].
  cbn [fst snd] in H3. destruct H3 as (Hc3 & Heq & Hd').
  cbn [fst snd pid ramp_up ramp_down]. unfold controller_wf. cbn [pid ramp_up ramp_down].
  split; [lia | ]. split; [ | split; [exact Heq | ]].
  - destruct (tick_ramp_down t); cbn [andb].
    + destruct (Z.ltb_spec (tick_request t) (ramp_down_target_current (ramp_down st))); lia.
    + assert (Hc : c3 = c2)
        by (specialize (Hoff (or_introl eq_refl)); congruence).
      lia.
  - split; [exact Hp' | split; [exact Hu' | exact Hd']].
Qed.

Lemma run_within_request_unless_ramping_down (ticks : list tick) :
  forall st : controller_state,
    controller_wf st -> Forall valid_tick ticks ->
    within_request_unless_ramping_down
      (ramp_down_target_current (ramp_down st)) ticks (snd (run st ticks)).
Proof.
  induction ticks as [ | t ticks IH]; intros st Hwf Hv.
  - exact I.
  - inversion Hv as [ | ? ? Ht Hts]; subst.
    pose proof (control_tick_request_bound st t Hwf Ht) as Hb. cbv zeta in Hb.
    cbn [run]. destruct (control_tick st t) as [st1 out].
    cbn [fst snd] in Hb. destruct Hb as (Hpos & Hout & Heq & Hwf1).
    specialize (IH st1 Hwf1 Hts). rewrite Heq in IH.
    destruct (run st1 ticks) as [st2 outs].
    cbn [snd within_request_unless_ramping_down] in *.
    split; [exact Hpos | split; [exact Hout | exact IH]].
Qed.

(** C1, as stated, fails: with every stage enabled, six ticks of full
    request let the ramp climb to 6; when the request then drops to 0 the
    ramp-down shaper lowers its target by 5 and returns 1, above the
    request. *)
Lemma shaped_output_exceeds_request :
  Forall valid_tick throttle_release /\
  snd (run controller_init throttle_release)
  = [(100, 1); (100, 2); (100, 3); (100, 4); (100, 5); (100, 6); (0, 1)] /\
  ~ never_amplifies (snd (run controller_init throttle_release)).
Proof.
  assert (Hrun : snd (run controller_init throttle_release)
                 = [(100, 1); (100, 2); (100, 3); (100, 4); (100, 5); (100, 6); (0, 1)])
    by (vm_compute; reflexivity).
  split; [ | split; [exact Hrun | ]].
  - unfold throttle_release. repeat constructor; cbn; lia.
  - rewrite Hrun. unfold never_amplifies. rewrite Forall_forall. intros H.
    specialize (H (0, 1)). cbn in H.
    assert (0 <= 1 <= 0) by (apply H; tauto). lia.
Qed.

(** C1, amended.  Over every sequence of ticks, from the initial state,
    the shaped current of a tick lies in the closed interval from 0 to
    that tick's request, except on a tick that enables the ramp-down
    shaper while the shaped current of the tick before (0 before the
    first tick) is above the request: there it lies in the closed
    interval from 0 to that previous shaped current.  A tick that
    disables the ramp-down shaper never returns more than its request. *)
Theorem shaped_output_within_request_unless_ramping_down :
  forall ticks : list tick,
    Forall valid_tick ticks ->
    within_request_unless_ramping_down 0 ticks (snd (run controller_init ticks)).
Proof.
  intros ticks Hv.
  exact (run_within_request_unless_ramping_down ticks controller_init
           controller_init_wf Hv).
Qed.

Lemma shaped_output_within_request_unless_ramping_down_witness :
  Forall valid_tick throttle_release /\
  within_request_unless_ramping_down 0 throttle_release
    (snd (run controller_init throttle_release)).
Proof.
  assert (Hv : Forall valid_tick throttle_release)
    by (unfold throttle_release; repeat constructor; cbn; lia).
  split; [exact Hv | ].
  exact (shaped_output_within_request_unless_ramping_down throttle_release Hv).
Defined.

(** ** Elapsed time across the wrap of the clock *)

(** C4.  Let the stored timestamp and the clock reading be the 32-bit
    images of two instants [L] and [L + E], wherever the counter wraps in
    between.  When the true elapsed time [E] fits the 16-bit difference,
    each stage computes exactly [E], and so decides by the true elapsed
    time: the ramp-up target advances iff [E >= 31], the ramp-down target
    drops iff [E >= 10], the PID evaluates iff [E >= 60]. *)
Theorem elapsed_time_exact_across_wrap :
  forall L E : Z,
    0 <= E < 65536 ->
    let last := uint32 L in
    let now := uint32 (L + E) in
    time_diff now last = E /\
    (forall r target_current,
        r < target_current ->
        ramp_up_target_current
          (fst (apply_current_ramp_up (mk_ramp_up r last) target_current true now))
        = if ramp_up_current_interval_ms <=? E then uint8 (r + 1) else r) /\
    (forall r target_current,
        is_uint8 r -> 0 <= target_current < r ->
        ramp_down_target_current
          (fst (apply_current_ramp_down (mk_ramp_down r last) target_current true now))
        = if 10 <=? E
          then r - Z.min CURRENT_RAMP_DOWN_PERCENT_10MS (r - target_current)
          else r) /\
    (forall st target_current current_speed,
        0 < target_current -> last_pid_ms st = last ->
        last_pid_ms (fst (apply_speed_limit st target_current current_speed now))
        = if 60 <=? E then now else last).
Proof.
  intros L E HE. cbv zeta.
  pose proof (time_diff_elapsed L E HE) as Htd.
  split; [exact Htd | ]. split; [ | split].
  - intros r tc Hlt.
    rewrite ramp_up_ramping by exact Hlt.
    cbv zeta. cbn [last_ramp_up_increment_ms ramp_up_target_current]. rewrite Htd.
    destruct (ramp_up_current_interval_ms <=? E); reflexivity.
  - intros r tc Hr Htc.
    rewrite ramp_down_ramping by (cbn [ramp_down_target_current]; (exact Hr || lia)).
    cbv zeta. cbn [last_ramp_down_decrement_ms ramp_down_target_current]. rewrite Htd.
    destruct (10 <=? E); reflexivity.
  - intros st tc speed Hpos Hlast. unfold apply_speed_limit.
    rewrite speed_limit_active by (try assumption; reflexivity).
    cbv zeta. rewrite Hlast, Htd.
    destruct (60 <=? E).
    + destruct (_ <? tc); cbn [fst last_pid_ms]; apply pid_evaluate_stamp.
    + destruct (_ <? tc); cbn [fst last_pid_ms]; exact Hlast.
Qed.

Lemma elapsed_time_exact_across_wrap_witness :
  0 <= 40 < 65536 /\
  time_diff (uint32 (4294967291 + 40)) (uint32 4294967291) = 40.
Proof.
  assert (HE : 0 <= 40 < 65536) by lia.
  split; [exact HE | ].
  exact (proj1 (elapsed_time_exact_across_wrap 4294967291 40 HE)).
Defined.

(** ** Overshoot compensation *)

(** C5, as stated, fails: an overshoot of 256 ms is cast to [uint8_t] and
    becomes 0, so the new baseline is [now], not [now - 256].  Ramp-up:
    baseline 100, clock 387, elapsed 287 = 31 + 256.  Ramp-down: baseline
    100, clock 366, elapsed 266 = 10 + 256. *)
Lemma baseline_loses_large_overshoot :
  (last_ramp_up_increment_ms (mk_ramp_up 10 100) <> 0 /\
   ramp_up_target_current (mk_ramp_up 10 100) < 50 /\
   time_diff 387 (last_ramp_up_increment_ms (mk_ramp_up 10 100)) = 287 /\
   last_ramp_up_increment_ms (fst (apply_current_ramp_up (mk_ramp_up 10 100) 50 true 387))
   = 387 /\
   last_ramp_up_increment_ms (fst (apply_current_ramp_up (mk_ramp_up 10 100) 50 true 387))
   <> 387 - (time_diff 387 (last_ramp_up_increment_ms (mk_ramp_up 10 100))
             - ramp_up_current_interval_ms)) /\
  (last_ramp_down_decrement_ms (mk_ramp_down 90 100) <> 0 /\
   20 < ramp_down_target_current (mk_ramp_down 90 100) /\
   time_diff 366 (last_ramp_down_decrement_ms (mk_ramp_down 90 100)) = 266 /\
   last_ramp_down_decrement_ms
     (fst (apply_current_ramp_down (mk_ramp_down 90 100) 20 true 366))
   = 366 /\
   last_ramp_down_decrement_ms
     (fst (apply_current_ramp_down (mk_ramp_down 90 100) 20 true 366))
   <> 366 - (time_diff 366 (last_ramp_down_decrement_ms (mk_ramp_down 90 100)) - 10)).
Proof.
  repeat split; try (vm_compute; congruence); try reflexivity.
Qed.

(** C5, amended.  After an increment or decrement that finds a stored
    timestamp other than 0, the new baseline is the clock reading minus
    the overshoot reduced modulo 256 (the source casts the overshoot to
    [uint8_t]), as a 32-bit value; it is the clock reading minus the whole
    overshoot for every overshoot below 256 ms. *)
Theorem baseline_offsets_overshoot_mod_256 :
  forall (up : ramp_up_state) (down : ramp_down_state)
         (request_up request_down now : Z),
    last_ramp_up_increment_ms up <> 0 ->
    last_ramp_down_decrement_ms down <> 0 ->
    ramp_up_target_current up < request_up ->
    is_uint8 (ramp_down_target_current down) ->
    0 <= request_down < ramp_down_target_current down ->
    let td_up := time_diff now (last_ramp_up_increment_ms up) in
    let td_down := time_diff now (last_ramp_down_decrement_ms down) in
    ramp_up_current_interval_ms <= td_up ->
    10 <= td_down ->
    let up' := fst (apply_current_ramp_up up request_up true now) in
    let down' := fst (apply_current_ramp_down down request_down true now) in
    last_ramp_up_increment_ms up'
    = uint32 (now - (td_up - ramp_up_current_interval_ms) mod 256) /\
    last_ramp_down_decrement_ms down'
    = uint32 (now - (td_down - 10) mod 256) /\
    (td_up - ramp_up_current_interval_ms < 256 ->
     last_ramp_up_increment_ms up'
     = uint32 (now - (td_up - ramp_up_current_interval_ms))) /\
    (td_down - 10 < 256 ->
     last_ramp_down_decrement_ms down' = uint32 (now - (td_down - 10))).
Proof.
  intros up down ru rd now Hu Hd Hru H8 Hrd. cbv zeta. intros Htu Htd.
  rewrite ramp_up_ramping by exact Hru.
  rewrite ramp_down_ramping by (exact H8 || lia).
  cbv zeta.
  destruct (Z.leb_spec ramp_up_current_interval_ms
              (time_diff now (last_ramp_up_increment_ms up))); [ | lia].
  destruct (Z.leb_spec 10 (time_diff now (last_ramp_down_decrement_ms down))); [ | lia].
  cbn [fst last_ramp_up_increment_ms last_ramp_down_decrement_ms].
  destruct (Z.eqb_spec (last_ramp_up_increment_ms up) 0); [contradiction | ].
  destruct (Z.eqb_spec (last_ramp_down_decrement_ms down) 0); [contradiction | ].
  unfold offset_overshoot, uint8.
  split; [reflexivity | split; [reflexivity | split]].
  - intros Hs. rewrite Z.mod_small by lia. reflexivity.
  - intros Hs. rewrite Z.mod_small by lia. reflexivity.
Qed.

Lemma baseline_offsets_overshoot_mod_256_witness :
  last_ramp_up_increment_ms (mk_ramp_up 10 100) <> 0 /\
  last_ramp_down_decrement_ms (mk_ramp_down 90 100) <> 0 /\
  ramp_up_target_current (mk_ramp_up 10 100) < 50 /\
  is_uint8 (ramp_down_target_current (mk_ramp_down 90 100)) /\
  0 <= 20 < ramp_down_target_current (mk_ramp_down 90 100) /\
  ramp_up_current_interval_ms <= time_diff 140 (last_ramp_up_increment_ms (mk_ramp_up 10 100)) /\
  10 <= time_diff 140 (last_ramp_down_decrement_ms (mk_ramp_down 90 100)) /\
  last_ramp_up_increment_ms (fst (apply_current_ramp_up (mk_ramp_up 10 100) 50 true 140))
  = uint32 (140 - (time_diff 140 (last_ramp_up_increment_ms (mk_ramp_up 10 100))
                   - ramp_up_current_interval_ms) mod 256).
Proof.
  assert (Hu : last_ramp_up_increment_ms (mk_ramp_up 10 100) <> 0) by (cbn; lia).
  assert (Hd : last_ramp_down_decrement_ms (mk_ramp_down 90 100) <> 0) by (cbn; lia).
  assert (Hru : ramp_up_target_current (mk_ramp_up 10 100) < 50) by (cbn; lia).
  assert (H8 : is_uint8 (ramp_down_target_current (mk_ramp_down 90 100)))
    by (unfold is_uint8; cbn; lia).
  assert (Hrd : 0 <= 20 < ramp_down_target_current (mk_ramp_down 90 100)) by (cbn; lia).
  assert (Htu : ramp_up_current_interval_ms
                <= time_diff 140 (last_ramp_up_increment_ms (mk_ramp_up 10 100)))
    by (vm_compute; discriminate).
  assert (Htd : 10 <= time_diff 140 (last_ramp_down_decrement_ms (mk_ramp_down 90 100)))
    by (vm_compute; discriminate).
  repeat (split; [assumption | ]).
  exact (proj1 (baseline_offsets_overshoot_mod_256
                  (mk_ramp_up 10 100) (mk_ramp_down 90 100) 50 20 140
                  Hu Hd Hru H8 Hrd Htu Htd)).
Defined.

(** ** The ramp-down shaper *)

Lemma ramp_down_run_reaches (clock : list Z) :
  forall (st : ramp_down_state) (target_current : Z),
    is_uint8 (ramp_down_target_current st) ->
    0 <= target_current <= ramp_down_target_current st ->
    paced_10ms st target_current clock ->
    ramp_down_target_current (ramp_down_run st target_current clock)
    = Z.max target_current
            (ramp_down_target_current st
             - CURRENT_RAMP_DOWN_PERCENT_10MS * Z.of_nat (length clock)).
Proof.
  unfold CURRENT_RAMP_DOWN_PERCENT_10MS.
  induction clock as [ | now clock IH]; intros st tc H8 Htc Hp.
  - cbn [ramp_down_run length Z.of_nat]. lia.
  - cbn [ramp_down_run]. destruct Hp as [Hfirst Hrest].
    destruct (Z.eq_dec tc (ramp_down_target_current st)) as [Heq | Hne].
    + rewrite ramp_down_resync in * by (right; lia). cbn [fst] in *.
      rewrite IH; cbn [ramp_down_target_current]; try assumption;
        unfold is_uint8 in *; cbn [length]; lia.
    + assert (Hlt : tc < ramp_down_target_current st) by lia.
      specialize (Hfirst Hlt). rewrite <- time_diff_mod in Hfirst.
      rewrite ramp_down_ramping in * by (assumption || lia).
      cbv zeta in *. unfold CURRENT_RAMP_DOWN_PERCENT_10MS in *.
      destruct (Z.leb_spec 10 (time_diff now (last_ramp_down_decrement_ms st))); [ | lia].
      cbn [fst] in *.
      rewrite IH; cbn [ramp_down_target_current]; try assumption;
        unfold is_uint8 in *; cbn [length]; lia.
Qed.

(** C6, as stated, fails: a call that comes 10 ms or more after the
    previous one need not lower the ramp target, because the shaper does
    not measure from the previous call.  After a resynchronization (here
    at 65530 ms) the stored timestamp is 0, and a call 11 ms later, at
    65541 ms, measures 65541 mod 2^16 = 5 ms: the target stays at 50.
    With a stored timestamp (1000, set by the decrement at 1000 ms), a
    call 65541 ms later measures 5 ms as well. *)
Lemma ramp_down_step_missed_after_10ms :
  (apply_current_ramp_down ramp_down_init 50 true 65530 = (mk_ramp_down 50 0, 50) /\
   10 <= 65541 - 65530 /\
   0 < ramp_down_target_current (mk_ramp_down 50 0) /\
   apply_current_ramp_down (mk_ramp_down 50 0) 0 true 65541 = (mk_ramp_down 50 0, 50) /\
   ramp_down_target_current (fst (apply_current_ramp_down (mk_ramp_down 50 0) 0 true 65541))
   <> 50 - Z.min CURRENT_RAMP_DOWN_PERCENT_10MS (50 - 0)) /\
  (apply_current_ramp_down (mk_ramp_down 55 0) 0 true 1000 = (mk_ramp_down 50 1000, 50) /\
   10 <= 66541 - 1000 /\
   0 < ramp_down_target_current (mk_ramp_down 50 1000) /\
   apply_current_ramp_down (mk_ramp_down 50 1000) 0 true 66541
   = (mk_ramp_down 50 1000, 50) /\
   ramp_down_target_current
     (fst (apply_current_ramp_down (mk_ramp_down 50 1000) 0 true 66541))
   <> 50 - Z.min CURRENT_RAMP_DOWN_PERCENT_10MS (50 - 0)).
Proof.
  repeat split; try (vm_compute; congruence); try reflexivity.
Qed.

(** C6, amended.  Enabled, with the request strictly below the ramp
    target, a call at which the elapsed time as the shaper measures it
    (clock minus stored timestamp, modulo 2^16, the stored timestamp being
    0 after a resynchronization) is at least 10 ms lowers the ramp target
    by 5, or by what is left when less than 5 is left, and returns the new
    target, which is not below the request.  Over a run with a constant
    request in which every call that finds the request below the target
    measures at least 10 ms, the target after [n] calls is the larger of
    the request and the start minus [5 n]: it reaches the request and
    stays there. *)
Theorem ramp_down_decrements_to_request :
  forall (st : ramp_down_state) (target_current now : Z) (clock : list Z),
    is_uint8 (ramp_down_target_current st) ->
    0 <= target_current < ramp_down_target_current st ->
    10 <= (now - last_ramp_down_decrement_ms st) mod 65536 ->
    paced_10ms st target_current (now :: clock) ->
    let r := apply_current_ramp_down st target_current true now in
    ramp_down_target_current (fst r)
    = ramp_down_target_current st
      - Z.min CURRENT_RAMP_DOWN_PERCENT_10MS (ramp_down_target_current st - target_current) /\
    snd r = ramp_down_target_current (fst r) /\
    target_current <= ramp_down_target_current (fst r) < ramp_down_target_current st /\
    ramp_down_target_current (ramp_down_run st target_current (now :: clock))
    = Z.max target_current
            (ramp_down_target_current st
             - CURRENT_RAMP_DOWN_PERCENT_10MS * Z.of_nat (length (now :: clock))) /\
    (ramp_down_target_current st - target_current
     <= CURRENT_RAMP_DOWN_PERCENT_10MS * Z.of_nat (length (now :: clock)) ->
     ramp_down_target_current (ramp_down_run st target_current (now :: clock))
     = target_current).
Proof.
  intros st tc now clock H8 Htc Htd Hp. cbv zeta.
  rewrite <- time_diff_mod in Htd.
  pose proof (ramp_down_run_reaches (now :: clock) st tc H8 ltac:(lia) Hp) as Hrun.
  rewrite ramp_down_ramping by (assumption || lia). cbv zeta.
  destruct (Z.leb_spec 10 (time_diff now (last_ramp_down_decrement_ms st))); [ | lia].
  cbn [fst snd ramp_down_target_current].
  unfold CURRENT_RAMP_DOWN_PERCENT_10MS, is_uint8 in *.
  repeat split; lia.
Qed.

Lemma ramp_down_decrements_to_request_witness :
  is_uint8 (ramp_down_target_current (mk_ramp_down 12 0)) /\
  0 <= 0 < ramp_down_target_current (mk_ramp_down 12 0) /\
  10 <= (10 - last_ramp_down_decrement_ms (mk_ramp_down 12 0)) mod 65536 /\
  paced_10ms (mk_ramp_down 12 0) 0 [10; 20; 30] /\
  ramp_down_target_current (fst (apply_current_ramp_down (mk_ramp_down 12 0) 0 true 10))
  = 12 - Z.min 5 (12 - 0) /\
  ramp_down_target_current (ramp_down_run (mk_ramp_down 12 0) 0 [10; 20; 30]) = 0.
Proof.
  assert (H8 : is_uint8 (ramp_down_target_current (mk_ramp_down 12 0)))
    by (unfold is_uint8; cbn; lia).
  assert (Htc : 0 <= 0 < ramp_down_target_current (mk_ramp_down 12 0)) by (cbn; lia).
  assert (Htd : 10 <= (10 - last_ramp_down_decrement_ms (mk_ramp_down 12 0)) mod 65536)
    by (vm_compute; discriminate).
  assert (Hp : paced_10ms (mk_ramp_down 12 0) 0 [10; 20; 30])
    by (cbn; repeat split; intros; vm_compute; discriminate).
  repeat (split; [assumption | ]).
  destruct (ramp_down_decrements_to_request (mk_ramp_down 12 0) 0 10 [20; 30]
              H8 Htc Htd Hp) as (Hstep & _ & _ & _ & Hreach).
  split; [exact Hstep | ].
  apply Hreach. cbn. lia.
Defined.

(** C9.  The decrement path of [apply_current_ramp_down] is guarded by
    the enable flag and by the request being below the ramp target, and by
    nothing else: a ramp target of at most 50 and one above 50 take the
    same path, and with the same timestamp and the same distance to the
    request they drop by the same amount and store the same timestamp. *)
Theorem ramp_down_has_no_threshold :
  forall (lo hi : ramp_down_state) (request_lo request_hi now : Z),
    is_uint8 (ramp_down_target_current lo) ->
    is_uint8 (ramp_down_target_current hi) ->
    ramp_down_target_current lo <= 50 < ramp_down_target_current hi ->
    0 <= request_lo < ramp_down_target_current lo ->
    0 <= request_hi < ramp_down_target_current hi ->
    last_ramp_down_decrement_ms lo = last_ramp_down_decrement_ms hi ->
    ramp_down_target_current lo - request_lo = ramp_down_target_current hi - request_hi ->
    let td := time_diff now (last_ramp_down_decrement_ms lo) in
    let step := Z.min CURRENT_RAMP_DOWN_PERCENT_10MS
                      (ramp_down_target_current lo - request_lo) in
    let stamp := if last_ramp_down_decrement_ms lo =? 0 then now
                 else offset_overshoot now td 10 in
    apply_current_ramp_down lo request_lo true now
    = (if 10 <=? td
       then (mk_ramp_down (ramp_down_target_current lo - step) stamp,
             ramp_down_target_current lo - step)
       else (lo, ramp_down_target_current lo)) /\
    apply_current_ramp_down hi request_hi true now
    = (if 10 <=? td
       then (mk_ramp_down (ramp_down_target_current hi - step) stamp,
             ramp_down_target_current hi - step)
       else (hi, ramp_down_target_current hi)).
Proof.
  intros lo hi rl rh now Hl Hh H50 Hrl Hrh Hlast Hgap. cbv zeta.
  rewrite (ramp_down_ramping lo) by (assumption || lia).
  rewrite (ramp_down_ramping hi) by (assumption || lia).
  cbv zeta. rewrite <- Hlast, <- Hgap. split; reflexivity.
Qed.

Lemma ramp_down_has_no_threshold_witness :
  is_uint8 (ramp_down_target_current (mk_ramp_down 40 1000)) /\
  is_uint8 (ramp_down_target_current (mk_ramp_down 90 1000)) /\
  ramp_down_target_current (mk_ramp_down 40 1000) <= 50 < ramp_down_target_current (mk_ramp_down 90 1000) /\
  0 <= 37 < ramp_down_target_current (mk_ramp_down 40 1000) /\
  0 <= 87 < ramp_down_target_current (mk_ramp_down 90 1000) /\
  last_ramp_down_decrement_ms (mk_ramp_down 40 1000) = last_ramp_down_decrement_ms (mk_ramp_down 90 1000) /\
  ramp_down_target_current (mk_ramp_down 40 1000) - 37 = ramp_down_target_current (mk_ramp_down 90 1000) - 87 /\
  apply_current_ramp_down (mk_ramp_down 40 1000) 37 true 1012 = (mk_ramp_down 37 1010, 37) /\
  apply_current_ramp_down (mk_ramp_down 90 1000) 87 true 1012 = (mk_ramp_down 87 1010, 87).
Proof.
  assert (Hl : is_uint8 (ramp_down_target_current (mk_ramp_down 40 1000)))
    by (unfold is_uint8; cbn; lia).
  assert (Hh : is_uint8 (ramp_down_target_current (mk_ramp_down 90 1000)))
    by (unfold is_uint8; cbn; lia).
  assert (H50 : ramp_down_target_current (mk_ramp_down 40 1000) <= 50
                < ramp_down_target_current (mk_ramp_down 90 1000)) by (cbn; lia).
  assert (Hrl : 0 <= 37 < ramp_down_target_current (mk_ramp_down 40 1000)) by (cbn; lia).
  assert (Hrh : 0 <= 87 < ramp_down_target_current (mk_ramp_down 90 1000)) by (cbn; lia).
  assert (Hlast : last_ramp_down_decrement_ms (mk_ramp_down 40 1000)
                  = last_ramp_down_decrement_ms (mk_ramp_down 90 1000)) by reflexivity.
  assert (Hgap : ramp_down_target_current (mk_ramp_down 40 1000) - 37
                 = ramp_down_target_current (mk_ramp_down 90 1000) - 87) by reflexivity.
  repeat (split; [assumption | ]).
  exact (ramp_down_has_no_threshold (mk_ramp_down 40 1000) (mk_ramp_down 90 1000)
           37 87 1012 Hl Hh H50 Hrl Hrh Hlast Hgap).
Defined.

(** ** The first step after a resynchronization *)

(** C10.  A resynchronizing call (at any clock [now0]) leaves 0 in the
    timestamp, and 0 is also a clock value.  On the next call that finds
    the precondition true, both shapers therefore measure the elapsed
    time from clock 0: it is the clock reading modulo 2^16, whatever
    [now0] was.  The step is taken iff that reading is at least the
    interval (31 ms up, 10 ms down), and the new baseline is the clock
    reading itself, with no overshoot subtracted.  The two shapers are
    taken in states, requests and clocks of their own; the ramp-up part
    includes the start from a target of 0. *)
Theorem first_step_measured_from_clock_zero :
  forall (up0 : ramp_up_state) (down0 : ramp_down_state)
         (held_up rise now0_up now_up : Z) (enable0_up : bool)
         (held_down fall now0_down now_down : Z) (enable0_down : bool),
    enable0_up = false \/ held_up <= ramp_up_target_current up0 ->
    enable0_down = false \/ ramp_down_target_current down0 <= held_down ->
    is_uint8 rise ->
    0 <= held_up < rise ->
    is_uint8 held_down ->
    0 <= fall < held_down ->
    let up := fst (apply_current_ramp_up up0 held_up enable0_up now0_up) in
    let down := fst (apply_current_ramp_down down0 held_down enable0_down now0_down) in
    let step := Z.min CURRENT_RAMP_DOWN_PERCENT_10MS (held_down - fall) in
    time_diff now_up (last_ramp_up_increment_ms up) = now_up mod 65536 /\
    time_diff now_down (last_ramp_down_decrement_ms down) = now_down mod 65536 /\
    (ramp_up_current_interval_ms <= now_up mod 65536 ->
     apply_current_ramp_up up rise true now_up
     = (mk_ramp_up (held_up + 1) now_up, held_up + 1)) /\
    (now_up mod 65536 < ramp_up_current_interval_ms ->
     apply_current_ramp_up up rise true now_up = (up, held_up)) /\
    (10 <= now_down mod 65536 ->
     apply_current_ramp_down down fall true now_down
     = (mk_ramp_down (held_down - step) now_down, held_down - step)) /\
    (now_down mod 65536 < 10 ->
     apply_current_ramp_down down fall true now_down = (down, held_down)).
Proof.
  intros up0 down0 hu rise n0u nu e0u hd fall n0d nd e0d Hu Hd H8r Hrise H8d Hfall.
  cbv zeta.
  rewrite ramp_up_resync by exact Hu.
  rewrite ramp_down_resync by exact Hd.
  cbn [fst].
  rewrite ramp_up_ramping by (cbn [ramp_up_target_current]; lia).
  rewrite ramp_down_ramping by (cbn [ramp_down_target_current]; (exact H8d || lia)).
  cbv zeta.
  cbn [ramp_up_target_current last_ramp_up_increment_ms
       ramp_down_target_current last_ramp_down_decrement_ms].
  rewrite !time_diff_unset. change (0 =? 0) with true. cbv iota.
  rewrite (uint8_id (hu + 1)) by (unfold is_uint8 in *; lia).
  split; [reflexivity | split; [reflexivity | ]].
  destruct (Z.leb_spec ramp_up_current_interval_ms (nu mod 65536));
    destruct (Z.leb_spec 10 (nd mod 65536));
    repeat split; intros; (reflexivity || lia).
Qed.

Lemma first_step_measured_from_clock_zero_witness :
  (false = false \/ 0 <= ramp_up_target_current ramp_up_init) /\
  (true = false \/ ramp_down_target_current (mk_ramp_down 20 900) <= 30) /\
  is_uint8 80 /\ 0 <= 0 < 80 /\ is_uint8 30 /\ 0 <= 10 < 30 /\
  ramp_up_current_interval_ms <= 1005 mod 65536 /\
  10 <= 2007 mod 65536 /\
  apply_current_ramp_up (fst (apply_current_ramp_up ramp_up_init 0 false 1000)) 80 true 1005
  = (mk_ramp_up 1 1005, 1) /\
  apply_current_ramp_down (fst (apply_current_ramp_down (mk_ramp_down 20 900) 30 true 2000))
                          10 true 2007
  = (mk_ramp_down 25 2007, 25).
Proof.
  assert (Hu : false = false \/ 0 <= ramp_up_target_current ramp_up_init)
    by (left; reflexivity).
  assert (Hd : true = false \/ ramp_down_target_current (mk_ramp_down 20 900) <= 30)
    by (right; cbn; lia).
  assert (H8r : is_uint8 80) by (unfold is_uint8; lia).
  assert (Hrise : 0 <= 0 < 80) by lia.
  assert (H8d : is_uint8 30) by (unfold is_uint8; lia).
  assert (Hfall : 0 <= 10 < 30) by lia.
  assert (Hi : ramp_up_current_interval_ms <= 1005 mod 65536) by (vm_compute; discriminate).
  assert (Hj : 10 <= 2007 mod 65536) by (vm_compute; discriminate).
  repeat (split; [assumption | ]).
  destruct (first_step_measured_from_clock_zero
              ramp_up_init (mk_ramp_down 20 900) 0 80 1000 1005 false 30 10 2000 2007 true
              Hu Hd H8r Hrise H8d Hfall)
    as (_ & _ & Hup & _ & Hdown & _).
  split; [exact (Hup Hi) | exact (Hdown Hj)].
Defined.

(** * Further properties of the code *)

(** ** Unit conversion and the error of the PID *)

Lemma convert_small s :
  is_uint8 s -> convert_wheel_speed_kph_to_rpm s = s * 100000 / 13608.
Proof.
  intros Hs. unfold convert_wheel_speed_kph_to_rpm, WHEEL_CIRCUMFERENCE_MM.
  rewrite (uint8_id s Hs). unfold is_uint8 in Hs.
  rewrite (uint32_id (s * 100000)) by (unfold is_uint32; lia).
  change (uint32 (2268 * 6)) with 13608.
  unfold uint16. apply Z.mod_small. split.
  - apply Z.div_pos; lia.
  - apply Z.div_lt_upper_bound; lia.
Qed.

(** The conversion from km/h to RPM is exact integer division by the
    wheel constant on the whole 8-bit range: no intermediate overflows,
    the result grows with the speed and stays below 1874, so that ten
    times the result fits the 16-bit variables of the PID. *)
Theorem convert_wheel_speed_monotone_bounded :
  forall a b : Z,
    0 <= a <= b -> b < 256 ->
    convert_wheel_speed_kph_to_rpm b = b * 100000 / (WHEEL_CIRCUMFERENCE_MM * 6) /\
    0 <= convert_wheel_speed_kph_to_rpm a <= convert_wheel_speed_kph_to_rpm b /\
    convert_wheel_speed_kph_to_rpm b <= 1873.
Proof.
  intros a b Hab Hb.
  rewrite !convert_small by (unfold is_uint8; lia).
  change (WHEEL_CIRCUMFERENCE_MM * 6) with 13608.
  split; [reflexivity | ]. split; [split | ].
  - apply Z.div_pos; lia.
  - apply Z.div_le_mono; lia.
  - apply Z.lt_succ_r. apply Z.div_lt_upper_bound; lia.
Qed.

Lemma convert_wheel_speed_monotone_bounded_witness :
  0 <= 25 <= 255 /\ 255 < 256 /\
  0 <= convert_wheel_speed_kph_to_rpm 25 <= convert_wheel_speed_kph_to_rpm 255 /\
  convert_wheel_speed_kph_to_rpm 255 <= 1873.
Proof.
  assert (H1 : 0 <= 25 <= 255) by lia.
  assert (H2 : 255 < 256) by lia.
  split; [exact H1 | split; [exact H2 | ]].
  exact (proj2 (convert_wheel_speed_monotone_bounded 25 255 H1 H2)).
Defined.

Lemma convert_period s k :
  convert_wheel_speed_kph_to_rpm (s + 256 * k) = convert_wheel_speed_kph_to_rpm s.
Proof.
  unfold convert_wheel_speed_kph_to_rpm, uint8.
  rewrite (Z.mul_comm 256 k), Z_mod_plus_full. reflexivity.
Qed.

(** The speed reaches [convert_wheel_speed_kph_to_rpm] through a
    [uint8_t] parameter: [apply_speed_limit] sees the measured speed
    modulo 256, so that a reading of [s + 256 k] km/h is handled exactly
    like [s] km/h. *)
Theorem speed_limit_speed_modulo_256 :
  forall (st : pid_state) (target_current current_speed now k : Z),
    apply_speed_limit st target_current (current_speed + 256 * k) now
    = apply_speed_limit st target_current current_speed now.
Proof.
  intros st tc speed now k.
  unfold apply_speed_limit, apply_speed_limit_at, pid_evaluate.
  rewrite convert_period. reflexivity.
Qed.

(** [pid_evaluate], at the ceiling of the source, computes its error as
    [speed_error] of the measured speed. *)
Lemma pid_evaluate_i_term_error st tc speed now td :
  i_term (pid_evaluate max_speed_rpm_x10 st tc speed now td)
  = CLAMP (F32.add (if td >=? 2000 then F32.of_Z tc else i_term st)
                   (F32.mul SPEED_LIMIT_PID_KI_X005 (F32.of_Z (speed_error speed))))
          (F32.of_Z 0) (F32.of_Z tc).
Proof. reflexivity. Qed.

(** The error of the PID is the exact difference between the ceiling
    (1830) and ten times the converted speed: no 16-bit conversion wraps
    for any 8-bit speed.  It is positive below 25 km/h, zero at 25 km/h
    and negative above. *)
Theorem speed_error_sign :
  forall s : Z,
    is_uint8 s ->
    speed_error s = 1830 - 10 * (s * 100000 / 13608) /\
    (0 < speed_error s <-> s < 25) /\
    (speed_error s = 0 <-> s = 25) /\
    (speed_error s < 0 <-> 25 < s).
Proof.
  intros s Hs.
  assert (Hall : forallb (fun z =>
                    (speed_error z =? 1830 - 10 * (z * 100000 / 13608))
                    && Bool.eqb (0 <? speed_error z) (z <? 25)
                    && Bool.eqb (speed_error z =? 0) (z =? 25)
                    && Bool.eqb (speed_error z <? 0) (25 <? z))
                  uint8_values = true) by (vm_compute; reflexivity).
  rewrite forallb_forall in Hall.
  specialize (Hall s (uint8_values_complete s Hs)).
  rewrite !andb_true_iff in Hall. destruct Hall as (((He & Hp) & Hz) & Hn).
  apply Z.eqb_eq in He. apply eqb_prop in Hp, Hz, Hn.
  split; [exact He | ].
  rewrite <- Z.ltb_lt, Hp, Z.ltb_lt.
  rewrite <- Z.eqb_eq, Hz, Z.eqb_eq.
  rewrite <- (Z.ltb_lt (speed_error s) 0), Hn, Z.ltb_lt.
  repeat split; intros; assumption.
Qed.

Lemma speed_error_sign_witness :
  is_uint8 26 /\ speed_error 26 = 1830 - 10 * (26 * 100000 / 13608) /\ speed_error 26 < 0.
Proof.
  assert (H8 : is_uint8 26) by (unfold is_uint8; lia).
  destruct (speed_error_sign 26 H8) as (He & _ & _ & Hn).
  split; [exact H8 | split; [exact He | ]].
  apply Hn. lia.
Defined.

(** ** The speed-limit controller between and across evaluations *)

(** On every call with a positive request, [apply_speed_limit] returns
    the smaller of the request and the committed output, and leaves the
    limiting flag set exactly when it returned less than the request. *)
Theorem speed_limit_returns_min_and_flags :
  forall (st : pid_state) (target_current current_speed now : Z),
    0 < target_current ->
    let r := apply_speed_limit st target_current current_speed now in
    snd r = Z.min target_current (clamped_output (fst r)) /\
    (speed_limiting (fst r) = true <-> snd r < target_current).
Proof.
  intros st tc speed now Hpos. cbv zeta. unfold apply_speed_limit.
  rewrite speed_limit_active by (try assumption; reflexivity). cbv zeta.
  match goal with |- context [clamped_output ?x <? tc] => generalize x end.
  intros st1.
  destruct (Z.ltb_spec (clamped_output st1) tc);
    cbn [fst snd clamped_output speed_limiting].
  - split; [lia | ]. split; intros; [assumption | reflexivity].
  - split; [lia | ]. split; intros; [discriminate | lia].
Qed.

Lemma speed_limit_returns_min_and_flags_witness :
  0 < 100 /\
  snd (apply_speed_limit pid_init 100 30 0)
  = Z.min 100 (clamped_output (fst (apply_speed_limit pid_init 100 30 0))) /\
  snd (apply_speed_limit pid_init 100 30 0) < 100.
Proof.
  assert (Hp : 0 < 100) by lia.
  destruct (speed_limit_returns_min_and_flags pid_init 100 30 0 Hp) as (Hmin & Hflag).
  split; [exact Hp | split; [exact Hmin | ]].
  apply Hflag. vm_compute. reflexivity.
Defined.

Lemma speed_limit_idle (st : pid_state) (target_current current_speed now : Z) :
  0 < target_current ->
  time_diff now (last_pid_ms st) < 60 ->
  apply_speed_limit st target_current current_speed now
  = (mk_pid (last_pid_ms st) (last_speed_rpm_x10 st) (clamped_output st) (i_term st)
            (clamped_output st <? target_current),
     Z.min target_current (clamped_output st)).
Proof.
  intros Hpos Htd. unfold apply_speed_limit.
  rewrite speed_limit_active by (try assumption; reflexivity). cbv zeta.
  destruct (Z.leb_spec 60 (time_diff now (last_pid_ms st))); [lia | ].
  destruct (Z.ltb_spec (clamped_output st) target_current).
  - rewrite Z.min_r by lia. reflexivity.
  - rewrite Z.min_l by lia. reflexivity.
Qed.

(** A call with a positive request that comes less than 60 ms (as
    measured) after the last evaluation does not evaluate: the integral,
    the last speed, the committed output and the timestamp stay as they
    are, whatever the speed; only the limiting flag is rewritten, and the
    call returns the smaller of the request and the committed output. *)
Theorem speed_limit_holds_between_evaluations :
  forall (st : pid_state) (target_current current_speed now : Z),
    0 < target_current ->
    time_diff now (last_pid_ms st) < 60 ->
    apply_speed_limit st target_current current_speed now
    = (mk_pid (last_pid_ms st) (last_speed_rpm_x10 st) (clamped_output st) (i_term st)
              (clamped_output st <? target_current),
       Z.min target_current (clamped_output st)).
Proof.
  intros st tc speed now Hpos Htd. apply speed_limit_idle; assumption.
Qed.

Lemma speed_limit_holds_between_evaluations_witness :
  0 < 80 /\
  time_diff 1030 (last_pid_ms (mk_pid 1000 1700 37 (F32.of_Z 12) false)) < 60 /\
  apply_speed_limit (mk_pid 1000 1700 37 (F32.of_Z 12) false) 80 24 1030
  = (mk_pid 1000 1700 37 (F32.of_Z 12) true, 37).
Proof.
  assert (Hp : 0 < 80) by lia.
  assert (Ht : time_diff 1030 (last_pid_ms (mk_pid 1000 1700 37 (F32.of_Z 12) false)) < 60)
    by (vm_compute; reflexivity).
  split; [exact Hp | split; [exact Ht | ]].
  exact (speed_limit_holds_between_evaluations
           (mk_pid 1000 1700 37 (F32.of_Z 12) false) 80 24 1030 Hp Ht).
Defined.

(** An evaluation that comes 2000 ms or more (as measured) after the
    last one discards the history: the new state and the returned current
    depend on the request, the speed and the clock only, not on the
    integral, the last speed, the committed output or the flag held
    before. *)
Theorem speed_limit_reset_discards_history :
  forall (st1 st2 : pid_state) (target_current current_speed now : Z),
    0 < target_current ->
    last_pid_ms st1 = last_pid_ms st2 ->
    2000 <= time_diff now (last_pid_ms st1) ->
    apply_speed_limit st1 target_current current_speed now
    = apply_speed_limit st2 target_current current_speed now.
Proof.
  intros st1 st2 tc speed now Hpos Hlast Htd. unfold apply_speed_limit.
  rewrite !speed_limit_active by (try assumption; reflexivity). cbv zeta.
  rewrite <- Hlast.
  destruct (Z.leb_spec 60 (time_diff now (last_pid_ms st1))); [ | lia].
  unfold pid_evaluate.
  rewrite (Z.geb_leb (time_diff now (last_pid_ms st1)) 2000).
  destruct (Z.leb_spec 2000 (time_diff now (last_pid_ms st1))); [ | lia].
  cbn [last_pid_ms last_speed_rpm_x10 clamped_output i_term speed_limiting].
  reflexivity.
Qed.

Lemma speed_limit_reset_discards_history_witness :
  0 < 80 /\
  last_pid_ms (mk_pid 1000 1700 37 (F32.of_Z 12) true)
  = last_pid_ms (mk_pid 1000 0 0 F32.zero false) /\
  2000 <= time_diff 3000 (last_pid_ms (mk_pid 1000 1700 37 (F32.of_Z 12) true)) /\
  apply_speed_limit (mk_pid 1000 1700 37 (F32.of_Z 12) true) 80 24 3000
  = apply_speed_limit (mk_pid 1000 0 0 F32.zero false) 80 24 3000.
Proof.
  assert (Hp : 0 < 80) by lia.
  assert (Hl : last_pid_ms (mk_pid 1000 1700 37 (F32.of_Z 12) true)
               = last_pid_ms (mk_pid 1000 0 0 F32.zero false)) by reflexivity.
  assert (Ht : 2000 <= time_diff 3000 (last_pid_ms (mk_pid 1000 1700 37 (F32.of_Z 12) true)))
    by (vm_compute; discriminate).
  split; [exact Hp | split; [exact Hl | split; [exact Ht | ]]].
  exact (speed_limit_reset_discards_history
           (mk_pid 1000 1700 37 (F32.of_Z 12) true) (mk_pid 1000 0 0 F32.zero false)
           80 24 3000 Hp Hl Ht).
Defined.

(** The 16-bit difference aliases long pauses: between timestamps that
    are [E] ms apart every stage measures [E mod 65536].  A positive
    request that returns [65536 k + e] ms after the last evaluation, with
    [e < 60], is therefore not even evaluated, let alone reset: the
    integral and the timestamp of before the pause are kept. *)
Theorem long_pause_is_aliased :
  forall (st : pid_state) (target_current current_speed L k e : Z),
    0 < target_current ->
    last_pid_ms st = uint32 L ->
    0 <= e < 60 ->
    let now := uint32 (L + (65536 * k + e)) in
    time_diff now (last_pid_ms st) = e /\
    i_term (fst (apply_speed_limit st target_current current_speed now)) = i_term st /\
    last_pid_ms (fst (apply_speed_limit st target_current current_speed now))
    = last_pid_ms st.
Proof.
  intros st tc speed L k e Hpos Hlast He. cbv zeta.
  assert (Htd : time_diff (uint32 (L + (65536 * k + e))) (last_pid_ms st) = e).
  { rewrite Hlast, time_diff_mod. unfold uint32.
    rewrite (Z.mod_eq (L + (65536 * k + e)) 4294967296), (Z.mod_eq L 4294967296) by lia.
    set (q1 := (L + (65536 * k + e)) / 4294967296). set (q0 := L / 4294967296).
    replace (L + (65536 * k + e) - 4294967296 * q1 - (L - 4294967296 * q0))
      with (e + (k + 65536 * q0 - 65536 * q1) * 65536) by ring.
    rewrite Z_mod_plus_full. apply Z.mod_small. lia. }
  split; [exact Htd | ].
  rewrite speed_limit_idle by (assumption || lia).
  cbn [fst i_term last_pid_ms]. split; reflexivity.
Qed.

Lemma long_pause_is_aliased_witness :
  0 < 80 /\
  last_pid_ms (mk_pid 1000 1700 37 (F32.of_Z 12) true) = uint32 1000 /\
  0 <= 5 < 60 /\
  time_diff (uint32 (1000 + (65536 * 1 + 5)))
            (last_pid_ms (mk_pid 1000 1700 37 (F32.of_Z 12) true)) = 5 /\
  i_term (fst (apply_speed_limit (mk_pid 1000 1700 37 (F32.of_Z 12) true) 80 24
                 (uint32 (1000 + (65536 * 1 + 5)))))
  = F32.of_Z 12.
Proof.
  assert (Hp : 0 < 80) by lia.
  assert (Hl : last_pid_ms (mk_pid 1000 1700 37 (F32.of_Z 12) true) = uint32 1000)
    by reflexivity.
  assert (He : 0 <= 5 < 60) by lia.
  destruct (long_pause_is_aliased (mk_pid 1000 1700 37 (F32.of_Z 12) true)
              80 24 1000 1 5 Hp Hl He) as (Htd & Hi & _).
  split; [exact Hp | split; [exact Hl | split; [exact He | split; [exact Htd | exact Hi]]]].
Defined.


(** ** Rate limits of the two shapers *)

Lemma ramp_up_enabled_bounds :
  forall (st : ramp_up_state) (target_current now : Z),
    is_uint8 target_current ->
    is_uint8 (ramp_up_target_current st) ->
    let r := apply_current_ramp_up st target_current true now in
    Z.min target_current (ramp_up_target_current st) <= snd r /\
    snd r <= Z.min target_current (ramp_up_target_current st + 1) /\
    ramp_up_target_current (fst r) = snd r.
Proof.
  intros st tc now Ht Hr. cbv zeta. unfold is_uint8 in *.
  destruct (Z.lt_ge_cases (ramp_up_target_current st) tc) as [Hlt | Hge].
  - rewrite ramp_up_ramping by assumption. cbv zeta.
    destruct (ramp_up_current_interval_ms <=? _);
      cbn [fst snd ramp_up_target_current].
    + rewrite uint8_id by (unfold is_uint8; lia). lia.
    + lia.
  - rewrite ramp_up_resync by (right; lia). cbn [fst snd ramp_up_target_current]. lia.
Qed.

(** Enabled, the ramp-up shaper returns either the smaller of the request
    and its ramp target, or one unit more, and never more than the
    request: the current it lets through rises by at most one unit per
    call, however much time has passed.  The returned value is the new
    ramp target. *)
Theorem ramp_up_at_most_one_per_call :
  forall (st : ramp_up_state) (target_current now : Z),
    is_uint8 target_current ->
    is_uint8 (ramp_up_target_current st) ->
    let r := apply_current_ramp_up st target_current true now in
    Z.min target_current (ramp_up_target_current st) <= snd r /\
    snd r <= Z.min target_current (ramp_up_target_current st + 1) /\
    ramp_up_target_current (fst r) = snd r.
Proof. exact ramp_up_enabled_bounds. Qed.

Lemma ramp_up_at_most_one_per_call_witness :
  is_uint8 100 /\ is_uint8 (ramp_up_target_current (mk_ramp_up 40 1000)) /\
  snd (apply_current_ramp_up (mk_ramp_up 40 1000) 100 true 60000)
  <= Z.min 100 (ramp_up_target_current (mk_ramp_up 40 1000) + 1).
Proof.
  assert (H1 : is_uint8 100) by (unfold is_uint8; lia).
  assert (H2 : is_uint8 (ramp_up_target_current (mk_ramp_up 40 1000)))
    by (unfold is_uint8; cbn; lia).
  split; [exact H1 | split; [exact H2 | ]].
  exact (proj1 (proj2 (ramp_up_at_most_one_per_call (mk_ramp_up 40 1000) 100 60000 H1 H2))).
Defined.

Lemma ramp_down_enabled_bounds :
  forall (st : ramp_down_state) (target_current now : Z),
    is_uint8 target_current ->
    is_uint8 (ramp_down_target_current st) ->
    let r := apply_current_ramp_down st target_current true now in
    Z.max target_current (ramp_down_target_current st - CURRENT_RAMP_DOWN_PERCENT_10MS)
    <= snd r /\
    snd r <= Z.max target_current (ramp_down_target_current st) /\
    ramp_down_target_current (fst r) = snd r.
Proof.
  intros st tc now Ht Hr. cbv zeta. unfold is_uint8 in *.
  destruct (Z.lt_ge_cases tc (ramp_down_target_current st)) as [Hlt | Hge].
  - rewrite ramp_down_ramping by (unfold is_uint8; lia). cbv zeta.
    unfold CURRENT_RAMP_DOWN_PERCENT_10MS.
    destruct (10 <=? _); cbn [fst snd ramp_down_target_current]; lia.
  - rewrite ramp_down_resync by (right; lia).
    unfold CURRENT_RAMP_DOWN_PERCENT_10MS.
    cbn [fst snd ramp_down_target_current]. lia.
Qed.

(** Enabled, the ramp-down shaper returns a current between the request
    and the larger of the request and its ramp target, and never less
    than the ramp target minus the decrement: the current it lets through
    falls by at most 5 per call.  The returned value is the new ramp
    target. *)
Theorem ramp_down_at_most_five_per_call :
  forall (st : ramp_down_state) (target_current now : Z),
    is_uint8 target_current ->
    is_uint8 (ramp_down_target_current st) ->
    let r := apply_current_ramp_down st target_current true now in
    Z.max target_current (ramp_down_target_current st - CURRENT_RAMP_DOWN_PERCENT_10MS)
    <= snd r /\
    snd r <= Z.max target_current (ramp_down_target_current st) /\
    ramp_down_target_current (fst r) = snd r.
Proof. exact ramp_down_enabled_bounds. Qed.

Lemma ramp_down_at_most_five_per_call_witness :
  is_uint8 0 /\ is_uint8 (ramp_down_target_current (mk_ramp_down 90 1000)) /\
  Z.max 0 (ramp_down_target_current (mk_ramp_down 90 1000) - CURRENT_RAMP_DOWN_PERCENT_10MS)
  <= snd (apply_current_ramp_down (mk_ramp_down 90 1000) 0 true 60000).
Proof.
  assert (H1 : is_uint8 0) by (unfold is_uint8; lia).
  assert (H2 : is_uint8 (ramp_down_target_current (mk_ramp_down 90 1000)))
    by (unfold is_uint8; cbn; lia).
  split; [exact H1 | split; [exact H2 | ]].
  exact (proj1 (ramp_down_at_most_five_per_call (mk_ramp_down 90 1000) 0 60000 H1 H2)).
Defined.

Lemma ramp_up_run_reaches (clock : list Z) :
  forall (st : ramp_up_state) (target_current : Z),
    is_uint8 target_current ->
    0 <= ramp_up_target_current st <= target_current ->
    paced_interval st target_current clock ->
    ramp_up_target_current (ramp_up_run st target_current clock)
    = Z.min target_current (ramp_up_target_current st + Z.of_nat (length clock)).
Proof.
  induction clock as [ | now clock IH]; intros st tc H8 Hr Hp.
  - cbn [ramp_up_run length Z.of_nat]. lia.
  - cbn [ramp_up_run]. destruct Hp as [Hfirst Hrest].
    destruct (Z.eq_dec tc (ramp_up_target_current st)) as [Heq | Hne].
    + rewrite ramp_up_resync in * by (right; lia). cbn [fst] in *.
      rewrite IH; cbn [ramp_up_target_current]; try assumption;
        cbn [length]; lia.
    + assert (Hlt : ramp_up_target_current st < tc) by lia.
      specialize (Hfirst Hlt).
      rewrite ramp_up_ramping in * by assumption.
      cbv zeta in *.
      destruct (Z.leb_spec ramp_up_current_interval_ms
                  (time_diff now (last_ramp_up_increment_ms st))); [ | lia].
      cbn [fst] in *.
      rewrite uint8_id in * by (unfold is_uint8 in *; lia).
      rewrite IH; cbn [ramp_up_target_current]; try assumption;
        cbn [length]; lia.
Qed.

(** Over a run of enabled calls with a constant request, each call that
    finds the request above the ramp target coming at least one ramp-up
    interval after the stored timestamp, the ramp target advances by
    exactly one unit per call until it equals the request, and stays
    there: after [n] calls it is the smaller of the request and the start
    plus [n]. *)
Theorem ramp_up_one_unit_per_interval :
  forall (st : ramp_up_state) (target_current : Z) (clock : list Z),
    is_uint8 target_current ->
    0 <= ramp_up_target_current st <= target_current ->
    paced_interval st target_current clock ->
    ramp_up_target_current (ramp_up_run st target_current clock)
    = Z.min target_current (ramp_up_target_current st + Z.of_nat (length clock)) /\
    (target_current - ramp_up_target_current st <= Z.of_nat (length clock) ->
     ramp_up_target_current (ramp_up_run st target_current clock) = target_current).
Proof.
  intros st tc clock H8 Hr Hp.
  pose proof (ramp_up_run_reaches clock st tc H8 Hr Hp) as Hrun.
  split; [exact Hrun | ]. intros Hn. rewrite Hrun. lia.
Qed.

Lemma ramp_up_one_unit_per_interval_witness :
  is_uint8 3 /\
  0 <= ramp_up_target_current ramp_up_init <= 3 /\
  paced_interval ramp_up_init 3 [31; 62; 93; 124] /\
  ramp_up_target_current (ramp_up_run ramp_up_init 3 [31; 62; 93; 124]) = 3.
Proof.
  assert (H8 : is_uint8 3) by (unfold is_uint8; lia).
  assert (Hr : 0 <= ramp_up_target_current ramp_up_init <= 3) by (cbn; lia).
  assert (Hp : paced_interval ramp_up_init 3 [31; 62; 93; 124])
    by (cbn; repeat split; intros; (lia || (vm_compute; discriminate))).
  split; [exact H8 | split; [exact Hr | split; [exact Hp | ]]].
  apply (ramp_up_one_unit_per_interval ramp_up_init 3 [31; 62; 93; 124] H8 Hr Hp).
  cbn. lia.
Defined.

(** ** Phase of the ramps *)

Lemma overshoot_baseline (now last interval : Z) :
  0 <= interval ->
  interval <= uint32 (now - last) < interval + 256 ->
  interval + 256 <= 65536 ->
  time_diff now last = uint32 (now - last) /\
  offset_overshoot now (time_diff now last) interval = uint32 (last + interval).
Proof.
  intros Hi He Hs.
  assert (Htd : time_diff now last = uint32 (now - last)).
  { unfold time_diff, uint16. apply Z.mod_small. lia. }
  split; [exact Htd | ].
  unfold offset_overshoot. rewrite Htd.
  rewrite uint8_id by (unfold is_uint8; lia).
  unfold uint32 in *.
  rewrite (Z.mod_eq (now - last) 4294967296) by lia.
  set (q := (now - last) / 4294967296).
  replace (now - (now - last - 4294967296 * q - interval))
    with (last + interval + q * 4294967296) by ring.
  apply Z_mod_plus_full.
Qed.

(** When a step that finds a stored timestamp other than 0 comes with an
    overshoot below 256 ms, the new baseline is the old baseline plus
    exactly one interval (31 ms up, 10 ms down), modulo 2^32, whatever the
    overshoot was: lateness of a call is not carried into the next
    interval. *)
Theorem baseline_advances_by_one_interval :
  forall (up : ramp_up_state) (down : ramp_down_state)
         (request_up request_down now : Z),
    last_ramp_up_increment_ms up <> 0 ->
    last_ramp_down_decrement_ms down <> 0 ->
    ramp_up_target_current up < request_up ->
    is_uint8 (ramp_down_target_current down) ->
    0 <= request_down < ramp_down_target_current down ->
    ramp_up_current_interval_ms <= uint32 (now - last_ramp_up_increment_ms up)
      < ramp_up_current_interval_ms + 256 ->
    10 <= uint32 (now - last_ramp_down_decrement_ms down) < 10 + 256 ->
    last_ramp_up_increment_ms (fst (apply_current_ramp_up up request_up true now))
    = uint32 (last_ramp_up_increment_ms up + ramp_up_current_interval_ms) /\
    last_ramp_down_decrement_ms (fst (apply_current_ramp_down down request_down true now))
    = uint32 (last_ramp_down_decrement_ms down + 10).
Proof.
  intros up down ru rd now Hu Hd Hru H8 Hrd Heu Hed.
  assert (Hi : ramp_up_current_interval_ms = 31) by reflexivity.
  destruct (overshoot_baseline now (last_ramp_up_increment_ms up)
              ramp_up_current_interval_ms ltac:(lia) Heu ltac:(lia)) as [Htu Hbu].
  destruct (overshoot_baseline now (last_ramp_down_decrement_ms down) 10
              ltac:(lia) Hed ltac:(lia)) as [Htd Hbd].
  rewrite ramp_up_ramping by exact Hru.
  rewrite ramp_down_ramping by (exact H8 || lia).
  cbv zeta.
  destruct (Z.leb_spec ramp_up_current_interval_ms
              (time_diff now (last_ramp_up_increment_ms up))); [ | lia].
  destruct (Z.leb_spec 10 (time_diff now (last_ramp_down_decrement_ms down))); [ | lia].
  cbn [fst last_ramp_up_increment_ms last_ramp_down_decrement_ms].
  destruct (Z.eqb_spec (last_ramp_up_increment_ms up) 0); [contradiction | ].
  destruct (Z.eqb_spec (last_ramp_down_decrement_ms down) 0); [contradiction | ].
  split; assumption.
Qed.

Lemma baseline_advances_by_one_interval_witness :
  last_ramp_up_increment_ms (mk_ramp_up 10 4294967290) <> 0 /\
  last_ramp_down_decrement_ms (mk_ramp_down 90 4294967290) <> 0 /\
  ramp_up_target_current (mk_ramp_up 10 4294967290) < 50 /\
  is_uint8 (ramp_down_target_current (mk_ramp_down 90 4294967290)) /\
  0 <= 20 < ramp_down_target_current (mk_ramp_down 90 4294967290) /\
  ramp_up_current_interval_ms
    <= uint32 (34 - last_ramp_up_increment_ms (mk_ramp_up 10 4294967290))
    < ramp_up_current_interval_ms + 256 /\
  10 <= uint32 (34 - last_ramp_down_decrement_ms (mk_ramp_down 90 4294967290)) < 10 + 256 /\
  last_ramp_up_increment_ms (fst (apply_current_ramp_up (mk_ramp_up 10 4294967290) 50 true 34))
  = uint32 (last_ramp_up_increment_ms (mk_ramp_up 10 4294967290)
            + ramp_up_current_interval_ms).
Proof.
  assert (Hu : last_ramp_up_increment_ms (mk_ramp_up 10 4294967290) <> 0) by (cbn; lia).
  assert (Hd : last_ramp_down_decrement_ms (mk_ramp_down 90 4294967290) <> 0) by (cbn; lia).
  assert (Hru : ramp_up_target_current (mk_ramp_up 10 4294967290) < 50) by (cbn; lia).
  assert (H8 : is_uint8 (ramp_down_target_current (mk_ramp_down 90 4294967290)))
    by (unfold is_uint8; cbn; lia).
  assert (Hrd : 0 <= 20 < ramp_down_target_current (mk_ramp_down 90 4294967290))
    by (cbn; lia).
  assert (Heu : ramp_up_current_interval_ms
                <= uint32 (34 - last_ramp_up_increment_ms (mk_ramp_up 10 4294967290))
                < ramp_up_current_interval_ms + 256)
    by (vm_compute; split; [discriminate | reflexivity]).
  assert (Hed : 10 <= uint32 (34 - last_ramp_down_decrement_ms (mk_ramp_down 90 4294967290))
                < 10 + 256)
    by (vm_compute; split; [discriminate | reflexivity]).
  repeat (split; [assumption | ]).
  exact (proj1 (baseline_advances_by_one_interval
                  (mk_ramp_up 10 4294967290) (mk_ramp_down 90 4294967290) 50 20 34
                  Hu Hd Hru H8 Hrd Heu Hed)).
Defined.

(** ** The pipeline over a run *)

Lemma control_tick_slew (st : controller_state) (t : tick) :
  controller_wf st -> ramps_ordered st -> valid_tick t ->
  let r := control_tick st t in
  let prev := ramp_down_target_current (ramp_down st) in
  (tick_ramp_up t = true -> snd r <= prev + 1) /\
  (tick_ramp_down t = true -> prev - CURRENT_RAMP_DOWN_PERCENT_10MS <= snd r) /\
  ramp_down_target_current (ramp_down (fst r)) = snd r /\
  controller_wf (fst r) /\ ramps_ordered (fst r).
Proof.
  intros (Hp & Hu & Hd) Hord (Hreq & Hms & Hsp). cbv zeta.
  unfold control_tick, ramps_ordered in *.
  assert (H8 : is_uint8 (tick_request t)) by (unfold is_uint8; lia).
  pose proof (speed_limit_bounds (pid st) (tick_request t) (tick_speed t) (tick_ms t)
                Hp H8 Hms) as H1.
  destruct (apply_speed_limit (pid st) (tick_request t) (tick_speed t) (tick_ms t))
    as [p c1].
  cbn [fst snd] in H1. destruct H1 as (Hc1 & Hp').
  assert (H81 : is_uint8 c1) by (unfold is_uint8 in *; lia).
  pose proof (ramp_up_bounds (ramp_up st) c1 (tick_ms t) (tick_ramp_up t) Hu H81 Hms) as H2.
  pose proof (ramp_up_enabled_bounds (ramp_up st) c1 (tick_ms t) H81 (proj1 Hu)) as H2e.
  cbv zeta in H2, H2e.
  destruct (tick_ramp_up t) eqn:Eup.
  - destruct (apply_current_ramp_up (ramp_up st) c1 true (tick_ms t)) as [u c2].
    cbn [fst snd] in H2, H2e. destruct H2 as (Hc2 & Hueq & Hu').
    assert (H82 : is_uint8 c2) by (unfold is_uint8 in *; lia).
    pose proof (ramp_down_bounds (ramp_down st) c2 (tick_ms t) (tick_ramp_down t)
                  Hd H82 Hms) as H3.
    pose proof (ramp_down_enabled_bounds (ramp_down st) c2 (tick_ms t) H82 (proj1 Hd)) as H3e.
    cbv zeta in H3, H3e. unfold CURRENT_RAMP_DOWN_PERCENT_10MS in *.
    destruct (tick_ramp_down t) eqn:Edown;
      destruct (apply_current_ramp_down (ramp_down st) c2 _ (tick_ms t)) as [d c3];
      cbn [fst snd] in H3, H3e; destruct H3 as (Hc3 & Hdeq & Hd');
      cbn [fst snd pid ramp_up ramp_down]; unfold controller_wf;
      cbn [pid ramp_up ramp_down];
      (split; [intros _; lia | ]); (split; [intros; (discriminate || lia) | ]);
      (split; [exact Hdeq | ]);
      (split; [split; [exact Hp' | split; [exact Hu' | exact Hd']] | lia]).
  - destruct (apply_current_ramp_up (ramp_up st) c1 false (tick_ms t)) as [u c2].
    cbn [fst snd] in H2. clear H2e. destruct H2 as (Hc2 & Hueq & Hu').
    assert (H82 : is_uint8 c2) by (unfold is_uint8 in *; lia).
    pose proof (ramp_down_bounds (ramp_down st) c2 (tick_ms t) (tick_ramp_down t)
                  Hd H82 Hms) as H3.
    pose proof (ramp_down_enabled_bounds (ramp_down st) c2 (tick_ms t) H82 (proj1 Hd)) as H3e.
    cbv zeta in H3, H3e. unfold CURRENT_RAMP_DOWN_PERCENT_10MS in *.
    destruct (tick_ramp_down t) eqn:Edown;
      destruct (apply_current_ramp_down (ramp_down st) c2 _ (tick_ms t)) as [d c3];
      cbn [fst snd] in H3, H3e; destruct H3 as (Hc3 & Hdeq & Hd');
      cbn [fst snd pid ramp_up ramp_down]; unfold controller_wf;
      cbn [pid ramp_up ramp_down];
      (split; [intros; discriminate | ]); (split; [intros; (discriminate || lia) | ]);
      (split; [exact Hdeq | ]);
      (split; [split; [exact Hp' | split; [exact Hu' | exact Hd']] | lia]).
Qed.

Lemma run_slew_limited (ticks : list tick) :
  forall st : controller_state,
    controller_wf st -> ramps_ordered st -> Forall valid_tick ticks ->
    slew_limited (ramp_down_target_current (ramp_down st)) ticks (snd (run st ticks)).
Proof.
  induction ticks as [ | t ticks IH]; intros st Hwf Hord Hv.
  - exact I.
  - inversion Hv as [ | ? ? Ht Hts]; subst.
    pose proof (control_tick_slew st t Hwf Hord Ht) as Hb. cbv zeta in Hb.
    cbn [run]. destruct (control_tick st t) as [st1 out].
    cbn [fst snd] in Hb. destruct Hb as (Hup & Hdown & Heq & Hwf1 & Hord1).
    specialize (IH st1 Hwf1 Hord1 Hts). rewrite Heq in IH.
    destruct (run st1 ticks) as [st2 outs]. cbn [snd slew_limited] in *.
    split; [exact Hup | split; [exact Hdown | exact IH]].
Qed.

(** Over every sequence of ticks from the initial state, the shaped
    current of a tick that enables the ramp-up shaper is at most one unit
    above the shaped current of the tick before, and that of a tick that
    enables the ramp-down shaper is at most 5 below it (0 stands for the
    tick before the first). *)
Theorem shaped_output_slew_limited :
  forall ticks : list tick,
    Forall valid_tick ticks ->
    slew_limited 0 ticks (snd (run controller_init ticks)).
Proof.
  intros ticks Hv.
  apply (run_slew_limited ticks controller_init controller_init_wf); [ | exact Hv].
  unfold ramps_ordered. cbn. lia.
Qed.

Lemma shaped_output_slew_limited_witness :
  Forall valid_tick throttle_release /\
  slew_limited 0 throttle_release (snd (run controller_init throttle_release)).
Proof.
  assert (Hv : Forall valid_tick throttle_release)
    by (unfold throttle_release; repeat constructor; cbn; lia).
  split; [exact Hv | ].
  exact (shaped_output_slew_limited throttle_release Hv).
Defined.

Lemma run_within_peak_request (ticks : list tick) :
  forall (st : controller_state) (peak : Z),
    controller_wf st -> ramp_down_target_current (ramp_down st) <= peak ->
    Forall valid_tick ticks ->
    within_peak_request peak (snd (run st ticks)).
Proof.
  induction ticks as [ | t ticks IH]; intros st peak Hwf Hpk Hv.
  - exact I.
  - inversion Hv as [ | ? ? Ht Hts]; subst.
    pose proof (control_tick_bounds st t Hwf Ht) as Hb. cbv zeta in Hb.
    cbn [run]. destruct (control_tick st t) as [st1 out].
    cbn [fst snd] in Hb. destruct Hb as (Hout & Heq & Hwf1).
    specialize (IH st1 (Z.max peak (tick_request t)) Hwf1 ltac:(lia) Hts).
    destruct (run st1 ticks) as [st2 outs]. cbn [snd within_peak_request] in *.
    split; [lia | exact IH].
Qed.

Lemma within_peak_request_le (bound : Z) (outs : list (Z * Z)) :
  forall peak : Z,
    peak <= bound -> Forall (fun p => fst p <= bound) outs ->
    within_peak_request peak outs ->
    Forall (fun p => 0 <= snd p <= bound) outs.
Proof.
  induction outs as [ | [request out] outs IH]; intros peak Hpk Hreq Hw.
  - constructor.
  - inversion Hreq as [ | ? ? Hr Hrs]; subst. cbn [fst] in Hr.
    cbn [within_peak_request] in Hw. destruct Hw as [Ho Hw].
    constructor; [cbn [snd]; lia | ].
    apply (IH (Z.max peak request)); [lia | exact Hrs | exact Hw].
Qed.

Lemma run_requests (ticks : list tick) :
  forall st : controller_state,
    map fst (snd (run st ticks)) = map tick_request ticks.
Proof.
  induction ticks as [ | t ticks IH]; intros st; [reflexivity | ].
  cbn [run]. destruct (control_tick st t) as [st1 out].
  specialize (IH st1). destruct (run st1 ticks) as [st2 outs].
  cbn [snd map fst] in *. now rewrite IH.
Qed.

(** Over every sequence of ticks from the initial state, the shaped
    current of a tick never exceeds the largest request made up to that
    tick; with requests that are percentages it is a percentage, 0 to
    100. *)
Theorem shaped_output_within_peak_request :
  forall ticks : list tick,
    Forall valid_tick ticks ->
    within_peak_request 0 (snd (run controller_init ticks)) /\
    Forall (fun p => 0 <= snd p <= 100) (snd (run controller_init ticks)).
Proof.
  intros ticks Hv.
  assert (Hpk : within_peak_request 0 (snd (run controller_init ticks))).
  { apply run_within_peak_request; [exact controller_init_wf | cbn; lia | exact Hv]. }
  split; [exact Hpk | ].
  apply (within_peak_request_le 100 _ 0); [lia | | exact Hpk].
  rewrite Forall_forall. intros [request out] Hin. cbn [fst].
  assert (Hm : In request (map fst (snd (run controller_init ticks))))
    by (apply (in_map fst _ _ Hin)).
  rewrite run_requests in Hm. apply in_map_iff in Hm. destruct Hm as (t & <- & Ht).
  rewrite Forall_forall in Hv. apply (Hv t Ht).
Qed.

Lemma shaped_output_within_peak_request_witness :
  Forall valid_tick throttle_release /\
  Forall (fun p => 0 <= snd p <= 100) (snd (run controller_init throttle_release)).
Proof.
  assert (Hv : Forall valid_tick throttle_release)
    by (unfold throttle_release; repeat constructor; cbn; lia).
  split; [exact Hv | ].
  exact (proj2 (shaped_output_within_peak_request throttle_release Hv)).
Defined.

(** ** The simulation of [main] *)

Lemma clock_from_range (n : nat) :
  forall t x : Z, In x (clock_from t n) -> t <= x <= t + 5 * (Z.of_nat n - 1).
Proof.
  induction n as [ | n IH]; intros t x Hin; [destruct Hin | ].
  cbn [clock_from] in Hin. destruct Hin as [<- | Hin]; [lia | ].
  apply IH in Hin. lia.
Qed.

Lemma main_clock_range : Forall is_uint32 main_clock.
Proof.
  unfold main_clock. rewrite Forall_forall. intros t Hin.
  apply clock_from_range in Hin.
  change (100000 / 5 + 1) with 20001 in Hin.
  rewrite Z2Nat.id in Hin by lia. unfold is_uint32. lia.
Qed.

Lemma main_step_bounds (st : sim_state) (t : Z) :
  controller_wf (sim_controller st) ->
  ramp_down_target_current (ramp_down (sim_controller st)) <= 100 ->
  is_uint32 t ->
  let r := main_step st t in
  0 <= snd r <= 100 /\
  F32.ltb (speed_kph (fst r)) (F32.of_Z 0) = false /\
  controller_wf (sim_controller (fst r)) /\
  ramp_down_target_current (ramp_down (sim_controller (fst r))) <= 100.
Proof.
  intros Hwf Hd Ht. cbv zeta. unfold main_step.
  set (tk := mk_tick t 100 (uint16 (F32.to_Z (speed_kph st))) true true).
  assert (Hv : valid_tick tk).
  { unfold valid_tick, tk. cbn [tick_request tick_ms tick_speed].
    split; [lia | split; [exact Ht | apply uint16_range]]. }
  pose proof (control_tick_bounds (sim_controller st) tk Hwf Hv) as Hb. cbv zeta in Hb.
  destruct (control_tick (sim_controller st) tk) as [c cur].
  cbn [fst snd] in Hb. destruct Hb as (Hout & Heq & Hwf1).
  unfold tk in Hout. cbn [tick_request] in Hout.
  cbn [fst snd sim_controller speed_kph].
  split; [lia | ]. split; [ | split; [exact Hwf1 | lia]].
  match goal with |- F32.ltb (if F32.ltb ?x _ then _ else _) _ = false =>
    destruct (F32.ltb x (F32.of_Z 0)) eqn:E; [reflexivity | exact E] end.
Qed.

Lemma main_loop_lines (clock : list Z) :
  forall st : sim_state,
    controller_wf (sim_controller st) ->
    ramp_down_target_current (ramp_down (sim_controller st)) <= 100 ->
    Forall is_uint32 clock ->
    map (fun l => fst (fst l)) (snd (main_loop st clock))
    = filter (fun t => t mod 200 =? 0) clock /\
    Forall (fun l => 0 <= snd (fst l) <= 100 /\ F32.ltb (snd l) (F32.of_Z 0) = false)
           (snd (main_loop st clock)).
Proof.
  induction clock as [ | t clock IH]; intros st Hwf Hd Hc.
  - split; [reflexivity | constructor].
  - inversion Hc as [ | ? ? Ht Hts]; subst.
    pose proof (main_step_bounds st t Hwf Hd Ht) as Hb. cbv zeta in Hb.
    cbn [main_loop filter]. destruct (main_step st t) as [st1 cur].
    cbn [fst snd] in Hb. destruct Hb as (Hcur & Hsp & Hwf1 & Hd1).
    specialize (IH st1 Hwf1 Hd1 Hts).
    destruct (main_loop st1 clock) as [st2 lines]. cbn [snd] in *.
    destruct IH as [IHt IHl].
    destruct (t mod 200 =? 0).
    + cbn [map fst snd]. split; [now rewrite IHt | ].
      constructor; [cbn [fst snd]; split; assumption | exact IHl].
    + split; assumption.
Qed.

(** [main] prints exactly 501 lines, at the times 0, 200, ..., 100000;
    every line shows a current between 0 and 100 and a speed that is not
    below zero. *)
Theorem main_prints_bounded_lines :
  map (fun l => fst (fst l)) (snd main) = map (fun k => 200 * Z.of_nat k) (seq 0 501) /\
  Forall (fun l => 0 <= snd (fst l) <= 100 /\ F32.ltb (snd l) (F32.of_Z 0) = false)
         (snd main).
Proof.
  destruct (main_loop_lines main_clock sim_init controller_init_wf
              ltac:(cbn; lia) main_clock_range) as [Ht Hl].
  split; [ | exact Hl].
  unfold main. rewrite Ht. vm_compute. reflexivity.
Qed.

(** The run of [main], evaluated: the shaped current climbs to the full
    request of 100, no printed speed reaches 30 km/h (the ceiling is 25),
    and at the end of the 100 s the limiter is limiting and the shaped
    current has settled at 8. *)
Theorem main_limits_the_speed :
  Forall (fun l => F32.ltb (snd l) (F32.of_Z 30) = true) (snd main) /\
  Exists (fun l => snd (fst l) = 100) (snd main) /\
  speed_limiting (pid (sim_controller (fst main))) = true /\
  clamped_output (pid (sim_controller (fst main))) = 8 /\
  ramp_down_target_current (ramp_down (sim_controller (fst main))) = 8.
Proof.
  assert (H : main_outcome main = true) by (vm_compute; reflexivity).
  revert H. generalize main. intros r H.
  unfold main_outcome in H. rewrite !andb_true_iff in H.
  destruct H as ((((Hall & Hex) & Hflag) & Hc) & Hd).
  rewrite forallb_forall in Hall. apply existsb_exists in Hex.
  split; [rewrite Forall_forall; exact Hall | ].
  split; [ | split; [exact Hflag | split; apply Z.eqb_eq; assumption]].
  destruct Hex as (l & Hin & Hl). apply Exists_exists. exists l.
  split; [exact Hin | apply Z.eqb_eq; exact Hl].
Qed.

(** ** The [CLAMP] macro *)

(** With bounds [lo < hi], [CLAMP] returns its argument when it lies
    strictly between them, the upper bound when the argument is above
    [lo] but not below [hi], and the lower bound in every other case, a
    NaN argument included: a NaN never passes through. *)
Theorem CLAMP_cases :
  forall x lo hi : spec_float,
    F32.ltb lo hi = true ->
    CLAMP x lo hi
    = (if F32.gtb x lo then (if F32.ltb x hi then x else hi) else lo) /\
    CLAMP S754_nan lo hi = lo.
Proof.
  intros x lo hi Hlh. unfold CLAMP, MIN, MAX.
  split.
  - destruct (F32.gtb x lo); [reflexivity | now rewrite Hlh].
  - assert (Hn : F32.gtb S754_nan lo = false) by (destruct lo; reflexivity).
    rewrite Hn. now rewrite Hlh.
Qed.

Lemma CLAMP_cases_witness :
  F32.ltb (F32.of_Z 0) (F32.of_Z 100) = true /\
  CLAMP S754_nan (F32.of_Z 0) (F32.of_Z 100) = F32.of_Z 0.
Proof.
  assert (H : F32.ltb (F32.of_Z 0) (F32.of_Z 100) = true) by reflexivity.
  split; [exact H | ].
  exact (proj2 (CLAMP_cases S754_nan (F32.of_Z 0) (F32.of_Z 100) H)).
Defined.

(** The constants of the simulation are the correctly rounded binary32
    quotients that their decimal literals denote. *)
Example simulation_constants_rounded :
  dt = F32.div (F32.of_Z 5) (F32.of_Z 1000) /\
  accel_per_amp = F32.div (F32.of_Z 2) (F32.of_Z 100) /\
  drag = F32.div (F32.of_Z 6) (F32.of_Z 1000).
Proof. repeat split; vm_compute; reflexivity. Qed.

(** From the initial state every positive request is cut to 0, with the
    limiting flag set, as long as the clock is less than 60 ms (as
    measured) past the initial timestamp 50, whatever the speed. *)
Lemma speed_limit_zero_until_first_evaluation (target_current current_speed now : Z) :
  0 < target_current ->
  time_diff now (last_pid_ms pid_init) < 60 ->
  apply_speed_limit pid_init target_current current_speed now
  = (mk_pid 50 0 0 F32.zero true, 0).
Proof.
  intros Hpos Htd. rewrite speed_limit_idle by assumption.
  cbn [pid_init last_pid_ms last_speed_rpm_x10 clamped_output i_term].
  destruct (Z.ltb_spec 0 target_current); [ | lia].
  rewrite Z.min_r by lia. reflexivity.
Qed.
